(** * statiq: a static file server handler (Go), embedded in Rocq

    The repository ships two near-identical handlers.  The first one
    (interface-typed root, [serveDirectoryListing], guarded trailing-slash
    test) is embedded in [Module Statiq]; the second one ([http.Dir] root,
    unguarded trailing-slash test, no listing renderer) in [Module StatiqB].
    What the two share ([Config], [StatiqHandler], [setCacheHeaders],
    [localRedirect]) is stated once.

    Modelling scope.  Go strings are byte strings, here [string].  A request
    is its [URL.Path] and [URL.RawQuery]: a plain GET without conditional or
    range headers, for which [http.ServeContent] replies with the whole
    content.  Paths use the Unix separator, so [filepath.Join] and
    [path.Join] coincide.  The operating system and the Go runtime
    ([os.Open], [os.Stat], [http.FileSystem.Open], the MIME table) are an
    interface ([HostOps]); an in-memory file tree ([Mem]) implements it. *)

From Stdlib Require Import ZArith String Ascii List Permutation Sorted Lia Bool.
From stdpp Require Import gmap strings pretty.
Import ListNotations.

Local Open Scope Z_scope.

(** ** Byte strings *)

Definition slash : ascii := "/"%char.
Definition dot : ascii := "."%char.

(** [len(s)] as a Go [int]. *)
Definition len (s : string) : Z := Z.of_nat (String.length s).

(** [s[i]]: Go panics when [i] is outside [0 <= i < len(s)]; [None] here. *)
Definition byte_at (s : string) (i : Z) : option ascii :=
  if i <? 0 then None else String.get (Z.to_nat i) s.

(** [strings.HasPrefix(s, prefix)]. *)
Definition HasPrefix (s prefix : string) : bool := String.prefix prefix s.

(** [strings.Split(s, "/")]: the fields between slashes (never empty list). *)
Fixpoint split_slash (s : string) : list string :=
  match s with
  | EmptyString => [EmptyString]
  | String c rest =>
      if Ascii.eqb c slash then EmptyString :: split_slash rest
      else match split_slash rest with
           | seg :: segs => String c seg :: segs
           | [] => [String c EmptyString]
           end
  end.

(** [strings.Join(elems, "/")]. *)
Fixpoint join_slash (elems : list string) : string :=
  match elems with
  | [] => EmptyString
  | [e] => e
  | e :: rest => e +:+ String slash (join_slash rest)
  end.

(** ** [path.Clean], [path.Join], [filepath.Ext]

    [path.Clean] by its documented rules: runs of slashes collapse, [.]
    elements vanish, an inner [..] removes the element before it, a [..]
    at the start of a rooted path vanishes, and the empty result is [.].
    [stack] holds the kept elements, last one first. *)

Definition dotdot : string := "..".

Definition clean_step (rooted : bool) (stack : list string) (seg : string)
  : list string :=
  if String.eqb seg "" then stack
  else if String.eqb seg "." then stack
  else if String.eqb seg dotdot then
    match stack with
    | top :: below =>
        if String.eqb top dotdot then dotdot :: stack else below
    | [] => if rooted then [] else [dotdot]
    end
  else seg :: stack.

Definition path_Clean (p : string) : string :=
  match p with
  | EmptyString => "."
  | String c _ =>
      let rooted := Ascii.eqb c slash in
      let kept := rev (fold_left (clean_step rooted) (split_slash p) []) in
      let out := (if rooted then "/" else "") +:+ join_slash kept in
      if String.eqb out "" then "." else out
  end.

(** [path.Join(a, b)]: empty elements are ignored, the rest is joined with
    slashes and cleaned; all empty gives the empty string. *)
Definition path_Join (a b : string) : string :=
  match a, b with
  | EmptyString, EmptyString => EmptyString
  | EmptyString, _ => path_Clean b
  | _, EmptyString => path_Clean a
  | _, _ => path_Clean (a +:+ String slash b)
  end.

(** [filepath.Join] on a Unix host. *)
Definition filepath_Join : string -> string -> string := path_Join.

(** [filepath.Ext]: scan from the end for a dot, stop at a separator.
    [ext_scan s] pairs the extension found in the last element of [s], if
    any, with whether a separator occurs in [s]. *)
Fixpoint ext_scan (s : string) : option string * bool :=
  match s with
  | EmptyString => (None, false)
  | String c rest =>
      let '(found, sep) := ext_scan rest in
      if sep then (found, true)
      else if Ascii.eqb c slash then (found, true)
      else match found with
           | Some e => (Some e, false)
           | None => if Ascii.eqb c dot then (Some s, false) else (None, false)
           end
  end.

Definition filepath_Ext (p : string) : string :=
  match fst (ext_scan p) with Some e => e | None => "" end.

(** A path element that [path.Clean] keeps as it is. *)
Fixpoint has_slash (s : string) : bool :=
  match s with
  | EmptyString => false
  | String c rest => Ascii.eqb c slash || has_slash rest
  end.

Definition plain_name (s : string) : bool :=
  negb (String.eqb s "") && negb (String.eqb s ".")
  && negb (String.eqb s dotdot) && negb (has_slash s).

(** The clean path of a directory, with its trailing slash: [/] for the
    root, [/a/b/] for the elements [a], [b]. *)
Fixpoint dir_body (segs : list string) : string :=
  match segs with
  | [] => ""
  | seg :: rest => seg +:+ String slash (dir_body rest)
  end.

Definition dir_path (segs : list string) : string :=
  String slash (dir_body segs).

(** ** Errors, time stamps, file handles *)

(** The Go [error] values the handlers distinguish: [os.IsNotExist] holds of
    the first only.  [ErrOther] stands for any further failure (a symbolic
    link cycle, an over-long name, an exhausted descriptor table, ...). *)
Inductive go_error := ErrNotExist | ErrPermission | ErrOther (msg : string).

Definition os_IsNotExist (e : go_error) : bool :=
  match e with ErrNotExist => true | _ => false end.

(** A [time.Time]: seconds since the Unix epoch and the zone offset (seconds
    east of UTC) that [Format] prints it in. *)
Record Time := mkTime { t_unix : Z; t_offset : Z }.

Definition Time_UTC (t : Time) : Time := mkTime (t_unix t) 0.

(** Proleptic Gregorian date of a day count since 1970-01-01. *)
Definition civil_from_days (days : Z) : Z * Z * Z :=
  let z := days + 719468 in
  let era := z / 146097 in
  let doe := z - era * 146097 in
  let yoe := (doe - doe / 1460 + doe / 36524 - doe / 146096) / 365 in
  let doy := doe - (365 * yoe + yoe / 4 - yoe / 100) in
  let mp := (5 * doy + 2) / 153 in
  let d := doy - (153 * mp + 2) / 5 + 1 in
  let m := if mp <? 10 then mp + 3 else mp - 9 in
  let y := yoe + era * 400 in
  (if m <=? 2 then y + 1 else y, m, d).

(** A number printed in decimal, left-padded with zeros to [width]. *)
Fixpoint zeros (n : nat) : string :=
  match n with O => "" | S k => String "0"%char (zeros k) end.

Definition zpad (width : nat) (n : Z) : string :=
  let digits := pretty (Z.abs n) in
  (if n <? 0 then "-" else "") +:+
  zeros (width - String.length digits) +:+ digits.

Definition day_name (wd : Z) : string :=
  nth (Z.to_nat wd) ["Sun"; "Mon"; "Tue"; "Wed"; "Thu"; "Fri"; "Sat"] "".

Definition month_name (m : Z) : string :=
  nth (Z.to_nat (m - 1))
      ["Jan"; "Feb"; "Mar"; "Apr"; "May"; "Jun";
       "Jul"; "Aug"; "Sep"; "Oct"; "Nov"; "Dec"] "".

Definition clock (secs : Z) : string :=
  zpad 2 (secs / 3600) +:+ ":" +:+ zpad 2 (secs mod 3600 / 60) +:+ ":"
  +:+ zpad 2 (secs mod 60).

(** [t.Format(http.TimeFormat)], layout [Mon, 02 Jan 2006 15:04:05 GMT]:
    the wall clock of [t] in its own zone, followed by the literal GMT. *)
Definition Format_TimeFormat (t : Time) : string :=
  let wall := t_unix t + t_offset t in
  let days := wall / 86400 in
  let '(y, m, d) := civil_from_days days in
  day_name ((days + 4) mod 7) +:+ ", " +:+ zpad 2 d +:+ " " +:+ month_name m
  +:+ " " +:+ zpad 4 y +:+ " " +:+ clock (wall mod 86400) +:+ " GMT".

(** [t.Format] with layout [2006-01-02 15:04:05] (the listing template). *)
Definition Format_listing (t : Time) : string :=
  let wall := t_unix t + t_offset t in
  let '(y, m, d) := civil_from_days (wall / 86400) in
  zpad 4 y +:+ "-" +:+ zpad 2 m +:+ "-" +:+ zpad 2 d +:+ " "
  +:+ clock (wall mod 86400).

(** [fs.FileInfo]. *)
Record FileInfo := mkFileInfo {
  fi_Name : string;
  fi_Size : Z;
  fi_Mode : Z;
  fi_ModTime : Time;
  fi_IsDir : bool;
}.

(** An open [http.File]: what its [Stat], [Readdir(-1)] and reading it to
    the end give. *)
Record File := mkFile {
  f_Stat : go_error + FileInfo;
  f_Readdir : go_error + list FileInfo;
  f_data : go_error + string;
}.

(** ** The host interface *)

(** Library tables and functions of the Go runtime the handlers call. *)
Class GoLib := {
  (** [mime.TypeByExtension] *)
  mime_TypeByExtension : string -> string;
  (** [http.DetectContentType] *)
  DetectContentType : string -> string;
  (** [html/template]'s escaper for text nodes *)
  tmpl_text : string -> string;
  (** [html/template]'s escaper inside a title element *)
  tmpl_rcdata : string -> string;
  (** [html/template]'s escaper chain for a URL attribute *)
  tmpl_href : string -> string;
}.

(** The operating system in state [W]. *)
Class HostOps (W : Type) := {
  os_Stat : W -> string -> go_error + FileInfo;
  os_Open : W -> string -> go_error + File;
  (** [os.MkdirAll]: the state after, or the error *)
  os_MkdirAll : W -> string -> go_error + W;
  filepath_Abs : W -> string -> go_error + string;
  (** [http.Dir(dir).Open(name)], the [http.FileSystem] the handler holds *)
  Dir_Open : W -> string -> string -> go_error + File;
}.

(** The file at [p] opens, its [Stat] succeeds and it can be read. *)
Definition readable {W : Type} `{HostOps W} (world : W) (p : string) : Prop :=
  exists f d data,
    os_Open world p = inr f /\ f_Stat f = inr d /\ f_data f = inr data.

(** ** [http.ResponseWriter] and [http.Request] *)

Record Request := mkRequest { URL_Path : string; URL_RawQuery : string }.

(** The writer's state.  [rw_header] is the live map [w.Header()] returns;
    the first [WriteHeader] commits the status and a snapshot of the map
    ([rw_sent]); what is set in the map, or passed to [WriteHeader], after
    that does not reach the client. *)
Record ResponseWriter := mkRW {
  rw_header : gmap string string;
  rw_wroteHeader : bool;
  rw_status : Z;
  rw_sent : gmap string string;
  rw_body : string;
}.

Definition fresh_writer : ResponseWriter := mkRW ∅ false 0 ∅ "".

Definition Header_Set (k v : string) (w : ResponseWriter) : ResponseWriter :=
  mkRW (<[k := v]> (rw_header w)) (rw_wroteHeader w) (rw_status w)
       (rw_sent w) (rw_body w).

Definition Header_Del (k : string) (w : ResponseWriter) : ResponseWriter :=
  mkRW (delete k (rw_header w)) (rw_wroteHeader w) (rw_status w)
       (rw_sent w) (rw_body w).

Definition WriteHeader (code : Z) (w : ResponseWriter) : ResponseWriter :=
  if rw_wroteHeader w then w
  else mkRW (rw_header w) true code (rw_header w) (rw_body w).

Definition Write (data : string) (w : ResponseWriter) : ResponseWriter :=
  let w' := WriteHeader 200 w in
  mkRW (rw_header w') (rw_wroteHeader w') (rw_status w') (rw_sent w')
       (rw_body w' +:+ data).

Definition StatusOK : Z := 200.
Definition StatusMovedPermanently : Z := 301.
Definition StatusForbidden : Z := 403.
Definition StatusNotFound : Z := 404.
Definition StatusInternalServerError : Z := 500.

Definition newline : string := String (ascii_of_nat 10) EmptyString.

(** [http.Error]. *)
Definition http_Error (w : ResponseWriter) (msg : string) (code : Z)
  : ResponseWriter :=
  let w := Header_Del "Content-Length" w in
  let w := Header_Set "Content-Type" "text/plain; charset=utf-8" w in
  let w := Header_Set "X-Content-Type-Options" "nosniff" w in
  let w := WriteHeader code w in
  Write (msg +:+ newline) w.

(** [http.NotFound]. *)
Definition http_NotFound (w : ResponseWriter) (r : Request) : ResponseWriter :=
  http_Error w "404 page not found" StatusNotFound.

Definition isZeroTime (t : Time) : bool :=
  (t_unix t =? -62135596800) || (t_unix t =? 0).

(** [http.ServeContent] on a request without conditional or range headers:
    [Last-Modified] unless the time is zero, a [Content-Type] unless one is
    set, the length, status 200, the whole content.  A handle that cannot be
    read gets the primitive's own 500 reply. *)
Definition http_ServeContent `{GoLib} (w : ResponseWriter) (r : Request)
    (name : string) (modtime : Time) (content : File) : ResponseWriter :=
  let w := if isZeroTime modtime then w
           else Header_Set "Last-Modified"
                  (Format_TimeFormat (Time_UTC modtime)) w in
  match f_data content with
  | inl _ => http_Error w "seeker can't seek" StatusInternalServerError
  | inr data =>
      let w :=
        match rw_header w !! "Content-Type" with
        | Some _ => w
        | None =>
            let byExt := mime_TypeByExtension (filepath_Ext name) in
            Header_Set "Content-Type"
              (if String.eqb byExt "" then DetectContentType data else byExt) w
        end in
      let w := Header_Set "Accept-Ranges" "bytes" w in
      let w := match rw_header w !! "Content-Encoding" with
               | Some _ => w
               | None => Header_Set "Content-Length" (pretty (len data)) w
               end in
      Write data (WriteHeader StatusOK w)
  end.

(** The header map [http.ServeContent] leaves for readable content. *)
Definition content_headers `{GoLib} (w : ResponseWriter) (name : string)
    (modtime : Time) (data : string) : gmap string string :=
  let m := if isZeroTime modtime then rw_header w
           else <["Last-Modified" := Format_TimeFormat (Time_UTC modtime)]>
                  (rw_header w) in
  let m := match m !! "Content-Type" with
           | Some _ => m
           | None =>
               let byExt := mime_TypeByExtension (filepath_Ext name) in
               <["Content-Type" := if String.eqb byExt ""
                                   then DetectContentType data else byExt]> m
           end in
  let m := <["Accept-Ranges" := "bytes"]> m in
  match m !! "Content-Encoding" with
  | Some _ => m
  | None => <["Content-Length" := pretty (len data)]> m
  end.

(** ** Configuration and handler state (the same in both sources) *)

Record Config := mkConfig {
  Root : string;
  EnableDirectoryListing : bool;
  IndexFiles : list string;
  SPAMode : bool;
  SPAIndex : string;
  ErrorPage404 : string;
  CacheControl : gmap string string;
}.

Definition CreateConfig : Config :=
  mkConfig "." false ["index.html"; "index.htm"] false "index.html" "" ∅.

(** [root] is the directory of the [http.Dir] file system the handler
    opens request paths in. *)
Record StatiqHandler := mkHandler {
  root : string;
  rootPath : string;
  enableDirListing : bool;
  indexFiles : list string;
  spaMode : bool;
  spaIndex : string;
  errorPage404 : string;
  cacheControl : gmap string string;
  notFoundResponseCode : Z;
}.

(** Why [New] returned an error. *)
Inductive New_error :=
| InvalidRootPath
| CreateRootFailed (dir : string)
| RootDoesNotExist (dir : string)
| ErrorPageNotFound (page : string).

(** The handler [New] builds once the root is settled. *)
Definition make_handler (root : string) (config : Config) (code : Z)
  : StatiqHandler :=
  mkHandler root root (EnableDirectoryListing config) (IndexFiles config)
            (SPAMode config) (SPAIndex config) (ErrorPage404 config)
            (CacheControl config) code.

Definition nonempty (s : string) : bool := negb (String.eqb s "").

(** [setCacheHeaders]. *)
Definition setCacheHeaders (h : StatiqHandler) (w : ResponseWriter)
    (r : Request) (d : FileInfo) : ResponseWriter :=
  let ext := filepath_Ext (fi_Name d) in
  let w :=
    match cacheControl h !! ext with
    | Some maxAge => Header_Set "Cache-Control" maxAge w
    | None =>
        match cacheControl h !! "*" with
        | Some maxAge => Header_Set "Cache-Control" maxAge w
        | None => Header_Set "Cache-Control" "max-age=86400" w
        end
    end in
  Header_Set "Last-Modified" (Format_TimeFormat (Time_UTC (fi_ModTime d))) w.

(** The Cache-Control precedence in the specification's words: the entry of
    the exact extension, else the wildcard entry, else the fixed default. *)
Definition CacheHeaderPolicy (policy : gmap string string) (ext : string)
  : string :=
  default "max-age=86400" (policy !! ext ∪ policy !! "*").

(** [localRedirect]. *)
Definition localRedirect (w : ResponseWriter) (r : Request) (newPath : string)
  : ResponseWriter :=
  let newPath := if nonempty (URL_RawQuery r)
                 then newPath +:+ "?" +:+ URL_RawQuery r else newPath in
  WriteHeader StatusMovedPermanently (Header_Set "Location" newPath w).

(** The request path with its leading slash ([upath]). *)
Definition clean_upath (r : Request) : string :=
  if HasPrefix (URL_Path r) "/" then URL_Path r else "/" +:+ URL_Path r.

(** [url[len(url)-1] != '/'], [None] when the index is out of range. *)
Definition last_is_not_slash (url : string) : option bool :=
  match byte_at url (len url - 1) with
  | Some c => Some (negb (Ascii.eqb c slash))
  | None => None
  end.

(** [len(url) == 0 || url[len(url)-1] != '/']: the right operand is only
    evaluated when the left one is false. *)
Definition needs_slash (url : string) : option bool :=
  if len url =? 0 then Some true else last_is_not_slash url.

(** What a handler call ends in: it returns, or the goroutine panics. *)
Inductive outcome := Returned (w : ResponseWriter) | Panicked (msg : string).

(** What the client sees of a reply. *)
Definition status_of (o : outcome) : option Z :=
  match o with
  | Returned w => Some (rw_status w)
  | Panicked _ => None
  end.

Definition body_of (o : outcome) : option string :=
  match o with
  | Returned w => Some (rw_body w)
  | Panicked _ => None
  end.

Definition sent_header (k : string) (o : outcome) : option string :=
  match o with
  | Returned w => rw_sent w !! k
  | Panicked _ => None
  end.

(** A writer nothing was written to yet. *)
Definition unwritten (w : ResponseWriter) : Prop :=
  rw_wroteHeader w = false /\ rw_body w = "".

(** The path ends in a slash. *)
Fixpoint ends_with_slash (s : string) : bool :=
  match s with
  | EmptyString => false
  | String c EmptyString => Ascii.eqb c slash
  | String _ rest => ends_with_slash rest
  end.

(** What [New] guarantees of the status kept for the custom page. *)
Definition handler_ok (h : StatiqHandler) : Prop :=
  notFoundResponseCode h
  = if nonempty (errorPage404 h) then StatusOK else StatusNotFound.

(** ** The directory listing *)

Record dirEntry := mkDirEntry {
  Name : string;
  Size : Z;
  Mode : Z;
  ModTime : Time;
  IsDir : bool;
}.

(** The comparison handed to [sort.Slice]. *)
Definition less (a b : FileInfo) : bool :=
  if fi_IsDir a && negb (fi_IsDir b) then true
  else if negb (fi_IsDir a) && fi_IsDir b then false
  else String.ltb (fi_Name a) (fi_Name b).

(** [x] may stand before [y] in a slice sorted by [lt]: [y] is not less
    than [x]. *)
Definition may_precede {A} (lt : A -> A -> bool) (x y : A) : Prop :=
  lt y x = false.

(** [sort.Slice]: the slice sorted by [lt] (here by insertion). *)
Fixpoint insert_sorted {A} (lt : A -> A -> bool) (x : A) (l : list A) : list A :=
  match l with
  | [] => [x]
  | y :: rest => if lt x y then x :: l else y :: insert_sorted lt x rest
  end.

Definition sort_Slice {A} (lt : A -> A -> bool) (l : list A) : list A :=
  fold_right (insert_sorted lt) [] l.

Definition to_dirEntry (entry : FileInfo) : dirEntry :=
  mkDirEntry (fi_Name entry) (fi_Size entry) (fi_Mode entry)
             (fi_ModTime entry) (fi_IsDir entry).

(** The order of the listing: directories first, then by name. *)
Definition listing_le (a b : dirEntry) : Prop :=
  (IsDir b = true -> IsDir a = true)
  /\ (IsDir a = IsDir b -> String.leb (Name a) (Name b) = true).

(** The template's data and the table rows it produces, in order. *)
Record ListingData := mkListing { Path : string; Files : list dirEntry }.

Inductive Row := ParentRow | FileRow (e : dirEntry).

(** [{{if ne .Path "/"}}] parent row [{{end}}] *)
Definition parent_rows (data : ListingData) : list Row :=
  if String.eqb (Path data) "/" then [] else [ParentRow].

(** [{{range .Files}}] entry row [{{end}}] *)
Definition file_rows (data : ListingData) : list Row :=
  map FileRow (Files data).

Definition template_rows (data : ListingData) : list Row :=
  parent_rows data ++ file_rows data.

Definition dq : string := String (ascii_of_nat 34) EmptyString.

(** The template text, cut at its actions. *)
Definition tmpl_head1 : string :=
"
<!DOCTYPE html>
<html>
<head>
    <meta charset=" +:+ dq +:+ "utf-8" +:+ dq +:+ ">
    <title>Index of ".

Definition tmpl_head2 : string :=
"</title>
    <style>
        body { font-family: sans-serif; margin: 2em; }
        table { border-collapse: collapse; width: 100%; }
        th, td { text-align: left; padding: 8px; }
        tr:nth-child(even) { background-color: #f2f2f2; }
        th { background-color: #4CAF50; color: white; }
        a { text-decoration: none; }
        a:hover { text-decoration: underline; }
    </style>
</head>
<body>
    <h1>Index of ".

Definition tmpl_head3 : string :=
"</h1>
    <table>
        <tr>
            <th>Name</th>
            <th>Size</th>
            <th>Modified</th>
        </tr>
        ".

Definition tmpl_parent : string :=
"
        <tr>
            <td><a href=" +:+ dq +:+ "../" +:+ dq +:+ ">../</a></td>
            <td>-</td>
            <td>-</td>
        </tr>
        ".

Definition tmpl_between : string :=
"
        ".

Definition tmpl_tail : string :=
"
    </table>
</body>
</html>
".

(** The parent-directory link of the template, as it stands in the
    document: the anchor to [../]. *)
Definition parent_link : string :=
  "<a href=" +:+ dq +:+ "../" +:+ dq +:+ ">../</a>".

(** Whether [substr] occurs in [s], as [strings.Contains] tests it. *)
Fixpoint contains (s substr : string) : bool :=
  String.prefix substr s
  || match s with
     | EmptyString => false
     | String _ rest => contains rest substr
     end.

(** Whether the character occurs in the string. *)
Fixpoint mentions (c : ascii) (s : string) : bool :=
  match s with
  | EmptyString => false
  | String x rest => Ascii.eqb x c || mentions c rest
  end.

(** Reading [substr] along all of [s]: what is left of it at the end of
    [s] (nothing when it ends inside [s]), no result when a character
    differs. *)
Fixpoint match_through (substr s : string) {struct s} : option string :=
  match s with
  | EmptyString => Some substr
  | String x rest =>
      match substr with
      | EmptyString => Some EmptyString
      | String c more =>
          if Ascii.eqb c x then match_through more rest else None
      end
  end.

(** The occurrences of [substr] that start inside [s] and that the end of
    [s] does not refute: what each of them has still to read after [s]. *)
Fixpoint pending (substr s : string) : list string :=
  match s with
  | EmptyString => []
  | String _ rest =>
      match match_through substr s with
      | Some todo => [todo]
      | None => []
      end ++ pending substr rest
  end.

Section Render.
Context `{GoLib}.

Definition render_entry (e : dirEntry) : string :=
  let suffix := if IsDir e then "/" else "" in
"
        <tr>
            <td><a href=" +:+ dq +:+ tmpl_href (Name e) +:+ suffix +:+ dq +:+ ">"
  +:+ tmpl_text (Name e) +:+ suffix +:+ "</a></td>
            <td>"
  +:+ (if IsDir e then "-" else tmpl_text (pretty (Size e)) +:+ " bytes")
  +:+ "</td>
            <td>" +:+ tmpl_text (Format_listing (ModTime e)) +:+ "</td>
        </tr>
        ".

Definition render_row (row : Row) : string :=
  match row with
  | ParentRow => tmpl_parent
  | FileRow e => render_entry e
  end.

Fixpoint concat_strings (l : list string) : string :=
  match l with
  | [] => ""
  | s :: rest => s +:+ concat_strings rest
  end.

(** [tmpl.Execute] on [data]: the document written to the response. *)
Definition render_dirlist (data : ListingData) : string :=
  tmpl_head1 +:+ tmpl_rcdata (Path data) +:+ tmpl_head2
  +:+ tmpl_text (Path data) +:+ tmpl_head3
  +:+ concat_strings (map render_row (parent_rows data))
  +:+ tmpl_between
  +:+ concat_strings (map render_row (file_rows data))
  +:+ tmpl_tail.

(** The escapers keep a value inside its place in the document: they
    write no opening angle bracket and, in an attribute, no double quote. *)
Definition escapers_keep_markup : Prop :=
  forall s,
    mentions "<" (tmpl_text s) = false
    /\ mentions "<" (tmpl_rcdata s) = false
    /\ mentions "<" (tmpl_href s) = false
    /\ mentions (ascii_of_nat 34) (tmpl_href s) = false.

(** The value of the [href] attribute in an entry's row. *)
Definition entry_href (e : dirEntry) : string :=
  tmpl_href (Name e) +:+ (if IsDir e then "/" else "").

End Render.

(** ** The first handler *)

Module Statiq.
Section Handler.
Context `{GoLib} {W : Type} `{HostOps W}.

(** [New]: the state of the host afterwards and the handler or the error. *)
Definition New (world : W) (config : Config) : W * (New_error + StatiqHandler) :=
  match filepath_Abs world (Root config) with
  | inl _ => (world, inl InvalidRootPath)
  | inr root =>
      let created :=
        match os_Stat world root with
        | inl err =>
            if os_IsNotExist err then os_MkdirAll world root else inr world
        | inr _ => inr world
        end in
      match created with
      | inl _ => (world, inl (CreateRootFailed root))
      | inr world =>
          if nonempty (ErrorPage404 config) then
            let errorPagePath := filepath_Join root (ErrorPage404 config) in
            match os_Stat world errorPagePath with
            | inl err =>
                if os_IsNotExist err
                then (world, inl (ErrorPageNotFound errorPagePath))
                else (world, inr (make_handler root config StatusOK))
            | inr _ => (world, inr (make_handler root config StatusOK))
            end
          else (world, inr (make_handler root config StatusNotFound))
      end
  end.

(** [serveFile]. *)
Definition serveFile (h : StatiqHandler) (world : W) (w : ResponseWriter)
    (r : Request) (filePath : string) : ResponseWriter :=
  match os_Open world filePath with
  | inl _ => http_Error w "Internal Server Error" StatusInternalServerError
  | inr f =>
      match f_Stat f with
      | inl _ => http_Error w "Internal Server Error" StatusInternalServerError
      | inr d =>
          let w := setCacheHeaders h w r d in
          let ext := filepath_Ext (fi_Name d) in
          let contentType := mime_TypeByExtension ext in
          let w := if nonempty contentType
                   then Header_Set "Content-Type" contentType w else w in
          http_ServeContent w r (fi_Name d) (fi_ModTime d) f
      end
  end.

(** [serveDirectoryListing]. *)
Definition serveDirectoryListing (h : StatiqHandler) (w : ResponseWriter)
    (r : Request) (f : File) (d : FileInfo) : ResponseWriter :=
  match f_Readdir f with
  | inl _ => http_Error w "Error reading directory" StatusInternalServerError
  | inr dirs =>
      let dirs := sort_Slice less dirs in
      let entries := map to_dirEntry dirs in
      let w := Header_Set "Content-Type" "text/html; charset=utf-8" w in
      let data := mkListing (URL_Path r) entries in
      Write (render_dirlist data) w
  end.

(** The index loop: the first [path.Join(upath, index)] that opens. *)
Fixpoint find_index (h : StatiqHandler) (world : W) (upath : string)
    (indexes : list string) : option string :=
  match indexes with
  | [] => None
  | index :: rest =>
      let indexPath := path_Join upath index in
      match Dir_Open world (root h) indexPath with
      | inr _ => Some indexPath
      | inl _ => find_index h world upath rest
      end
  end.

(** [ServeHTTP]. *)
Definition ServeHTTP (h : StatiqHandler) (world : W) (w : ResponseWriter)
    (r : Request) : outcome :=
  let upath := clean_upath r in
  match Dir_Open world (root h) upath with
  | inl err =>
      if os_IsNotExist err then
        if spaMode h then
          Returned (serveFile h world w r
                      (filepath_Join (rootPath h) (spaIndex h)))
        else if nonempty (errorPage404 h) then
          let w := WriteHeader (notFoundResponseCode h) w in
          Returned (serveFile h world w r
                      (filepath_Join (rootPath h) (errorPage404 h)))
        else Returned (http_NotFound w r)
      else Returned (http_Error w "Forbidden" StatusForbidden)
  | inr f =>
      match f_Stat f with
      | inl _ =>
          Returned (http_Error w "Internal Server Error"
                               StatusInternalServerError)
      | inr d =>
          if fi_IsDir d then
            let url := URL_Path r in
            match needs_slash url with
            | None => Panicked "index out of range"
            | Some true => Returned (localRedirect w r (url +:+ "/"))
            | Some false =>
                match find_index h world upath (indexFiles h) with
                | Some indexPath => Returned (localRedirect w r indexPath)
                | None =>
                    if negb (enableDirListing h) then
                      if nonempty (errorPage404 h) then
                        let w := WriteHeader (notFoundResponseCode h) w in
                        Returned (serveFile h world w r
                                    (filepath_Join (rootPath h)
                                                   (errorPage404 h)))
                      else Returned (http_NotFound w r)
                    else Returned (serveDirectoryListing h w r f d)
                end
            end
          else
            let w := setCacheHeaders h w r d in
            let name := fi_Name d in
            let ext := filepath_Ext name in
            let contentType := mime_TypeByExtension ext in
            let w := if nonempty contentType
                     then Header_Set "Content-Type" contentType w else w in
            Returned (http_ServeContent w r (fi_Name d) (fi_ModTime d) f)
      end
  end.

(** Rule 3 of the specification (classification Missing), in its words:
    with [spaMode] the file [root/spaIndexFile] is served; else, with
    [errorPage404] set, that page is served with status 200; else a plain
    404 is emitted. *)
Definition rule3 (h : StatiqHandler) (world : W) (w : ResponseWriter)
    (r : Request) : ResponseWriter :=
  if spaMode h then
    serveFile h world w r (filepath_Join (rootPath h) (spaIndex h))
  else if nonempty (errorPage404 h) then
    serveFile h world (WriteHeader StatusOK w) r
              (filepath_Join (rootPath h) (errorPage404 h))
  else http_NotFound w r.

End Handler.
End Statiq.

(** ** The second handler *)

Module StatiqB.
Section Handler.
Context `{GoLib} {W : Type} `{HostOps W}.

(** [New]. *)
Definition New (world : W) (config : Config) : New_error + StatiqHandler :=
  match filepath_Abs world (Root config) with
  | inl _ => inl InvalidRootPath
  | inr root =>
      let missing := match os_Stat world root with
                     | inl err => os_IsNotExist err
                     | inr _ => false
                     end in
      if missing then inl (RootDoesNotExist root)
      else if nonempty (ErrorPage404 config) then
        let errorPagePath := filepath_Join root (ErrorPage404 config) in
        match os_Stat world errorPagePath with
        | inl err =>
            if os_IsNotExist err then inl (ErrorPageNotFound errorPagePath)
            else inr (make_handler root config StatusOK)
        | inr _ => inr (make_handler root config StatusOK)
        end
      else inr (make_handler root config StatusNotFound)
  end.

(** [serveFile]. *)
Definition serveFile (h : StatiqHandler) (world : W) (w : ResponseWriter)
    (r : Request) (filepath : string) : ResponseWriter :=
  match os_Open world filepath with
  | inl _ => http_Error w "Internal Server Error" StatusInternalServerError
  | inr f =>
      match f_Stat f with
      | inl _ => http_Error w "Internal Server Error" StatusInternalServerError
      | inr d =>
          let w := setCacheHeaders h w r d in
          http_ServeContent w r (fi_Name d) (fi_ModTime d) f
      end
  end.

(** The index loop, with [filepath.Join]. *)
Fixpoint find_index (h : StatiqHandler) (world : W) (upath : string)
    (indexes : list string) : option string :=
  match indexes with
  | [] => None
  | index :: rest =>
      let indexPath := filepath_Join upath index in
      match Dir_Open world (root h) indexPath with
      | inr _ => Some indexPath
      | inl _ => find_index h world upath rest
      end
  end.

(** [ServeHTTP]. *)
Definition ServeHTTP (h : StatiqHandler) (world : W) (w : ResponseWriter)
    (r : Request) : outcome :=
  let upath := clean_upath r in
  match Dir_Open world (root h) upath with
  | inl err =>
      if os_IsNotExist err then
        if spaMode h then
          Returned (serveFile h world w r
                      (filepath_Join (root h) (spaIndex h)))
        else if nonempty (errorPage404 h) then
          let w := WriteHeader (notFoundResponseCode h) w in
          Returned (serveFile h world w r
                      (filepath_Join (root h) (errorPage404 h)))
        else Returned (http_NotFound w r)
      else Returned (http_Error w "Forbidden" StatusForbidden)
  | inr f =>
      match f_Stat f with
      | inl _ =>
          Returned (http_Error w "Internal Server Error"
                               StatusInternalServerError)
      | inr d =>
          if fi_IsDir d then
            let url := URL_Path r in
            match last_is_not_slash url with
            | None => Panicked "index out of range"
            | Some true => Returned (localRedirect w r (url +:+ "/"))
            | Some false =>
                match find_index h world upath (indexFiles h) with
                | Some indexPath => Returned (localRedirect w r indexPath)
                | None =>
                    if negb (enableDirListing h) then
                      if nonempty (errorPage404 h) then
                        let w := WriteHeader (notFoundResponseCode h) w in
                        Returned (serveFile h world w r
                                    (filepath_Join (root h) (errorPage404 h)))
                      else Returned (http_NotFound w r)
                    else
                      Returned (http_ServeContent w r (fi_Name d)
                                                  (fi_ModTime d) f)
                end
            end
          else
            let w := setCacheHeaders h w r d in
            Returned (http_ServeContent w r (fi_Name d) (fi_ModTime d) f)
      end
  end.

(** Rule 3 of the specification, over this handler's [serveFile]. *)
Definition rule3 (h : StatiqHandler) (world : W) (w : ResponseWriter)
    (r : Request) : ResponseWriter :=
  if spaMode h then
    serveFile h world w r (filepath_Join (root h) (spaIndex h))
  else if nonempty (errorPage404 h) then
    serveFile h world (WriteHeader StatusOK w) r
              (filepath_Join (root h) (errorPage404 h))
  else http_NotFound w r.

End Handler.
End StatiqB.

(** ** An in-memory host

    A file tree as an association list from absolute, clean paths to nodes,
    in directory order.  Besides files and directories it has the nodes that
    make the system calls fail: a file without read permission, a symbolic
    link cycle, and a handle whose [Stat] fails. *)

Module Mem.

Inductive node :=
| Regular (data : string) (mtime : Time)
| Folder (mtime : Time)
| Locked
| Looping
| Stale.

Definition tree := list (string * node).

Fixpoint lookup (p : string) (t : tree) : option node :=
  match t with
  | [] => None
  | (k, n) :: rest => if String.eqb k p then Some n else lookup p rest
  end.

(** [filepath.Abs] with working directory [/]. *)
Definition abs (p : string) : string :=
  if HasPrefix p "/" then path_Clean p else path_Clean ("/" +:+ p).

(** [path.Base]. *)
Definition base (p : string) : string :=
  match rev (split_slash (abs p)) with
  | last :: _ => if String.eqb last "" then "/" else last
  | [] => "/"
  end.

Definition parent (p : string) : string := path_Clean (p +:+ "/..").

Definition info (p : string) (n : node) : FileInfo :=
  match n with
  | Regular data mtime => mkFileInfo (base p) (len data) 420 mtime false
  | Folder mtime => mkFileInfo (base p) 4096 493 mtime true
  | _ => mkFileInfo (base p) 0 0 (mkTime 0 0) false
  end.

Definition children (t : tree) (p : string) : list FileInfo :=
  map (fun kn => info (fst kn) (snd kn))
      (List.filter (fun kn => negb (String.eqb (fst kn) "/")
                         && String.eqb (parent (fst kn)) p) t).

Definition stat (t : tree) (p : string) : go_error + FileInfo :=
  match lookup (abs p) t with
  | None => inl ErrNotExist
  | Some Looping => inl (ErrOther "too many levels of symbolic links")
  | Some n => inr (info (abs p) n)
  end.

Definition open (t : tree) (p : string) : go_error + File :=
  let p := abs p in
  match lookup p t with
  | None => inl ErrNotExist
  | Some Locked => inl ErrPermission
  | Some Looping => inl (ErrOther "too many levels of symbolic links")
  | Some Stale =>
      inr (mkFile (inl (ErrOther "stale file handle"))
                  (inl (ErrOther "stale file handle"))
                  (inl (ErrOther "stale file handle")))
  | Some (Regular data mtime) =>
      inr (mkFile (inr (info p (Regular data mtime)))
                  (inl (ErrOther "not a directory")) (inr data))
  | Some (Folder mtime) =>
      inr (mkFile (inr (info p (Folder mtime))) (inr (children t p))
                  (inl (ErrOther "is a directory")))
  end.

(** The ancestors of a path, outermost first, the path itself last. *)
Fixpoint ancestors (prefix : string) (segs : list string) : list string :=
  match segs with
  | [] => []
  | seg :: rest =>
      if String.eqb seg "" then ancestors prefix rest
      else let here := prefix +:+ "/" +:+ seg in here :: ancestors here rest
  end.

Definition mkdirAll (t : tree) (p : string) : go_error + tree :=
  match lookup (abs p) t with
  | Some (Folder _) => inr t
  | Some _ => inl (ErrOther "not a directory")
  | None =>
      inr (t ++ map (fun d => (d, Folder (mkTime 0 0)))
                    (List.filter (fun d => match lookup d t with
                                      | None => true | Some _ => false end)
                            (ancestors "" (split_slash (abs p)))))
  end.

(** [http.Dir(dir).Open(name)]: the name is cleaned as a rooted path and
    opened below [dir]. *)
Definition dirOpen (t : tree) (dir name : string) : go_error + File :=
  open t (filepath_Join dir (path_Clean ("/" +:+ name))).

#[global] Instance host : HostOps tree := {
  os_Stat := stat;
  os_Open := open;
  os_MkdirAll := mkdirAll;
  filepath_Abs := fun _ p => inr (abs p);
  Dir_Open := dirOpen;
}.

Definition mimeTable (ext : string) : string :=
  if String.eqb ext ".html" then "text/html; charset=utf-8"
  else if String.eqb ext ".css" then "text/css; charset=utf-8"
  else if String.eqb ext ".go" then "text/x-go; charset=utf-8"
  else "".

(** The five characters every HTML escaper replaces. *)
Fixpoint escape (s : string) : string :=
  match s with
  | EmptyString => ""
  | String c rest =>
      (if Ascii.eqb c "&"%char then "&amp;"
       else if Ascii.eqb c "<"%char then "&lt;"
       else if Ascii.eqb c ">"%char then "&gt;"
       else if Ascii.eqb c (ascii_of_nat 34) then "&#34;"
       else if Ascii.eqb c (ascii_of_nat 39) then "&#39;"
       else String c "") +:+ escape rest
  end.

#[global] Instance golib : GoLib := {
  mime_TypeByExtension := mimeTable;
  DetectContentType := fun _ => "text/plain; charset=utf-8";
  tmpl_text := escape;
  tmpl_rcdata := escape;
  tmpl_href := escape;
}.

(** *** A site to run the handlers on *)

Definition t0 : Time := mkTime 1700000000 3600.

Definition site : tree :=
  [ ("/", Folder t0);
    ("/srv", Folder t0);
    ("/srv/index.html", Regular "<html>app</html>" t0);
    ("/srv/404.html", Regular "<html>custom 404</html>" t0);
    ("/srv/style.css", Regular "body {}" t0);
    ("/srv/notes", Regular "plain notes" t0);
    ("/srv/sub", Folder t0);
    ("/srv/sub/index.htm", Regular "<html>sub, second choice</html>" t0);
    ("/srv/sub/home.html", Regular "<html>sub, third choice</html>" t0);
    ("/srv/docs", Folder t0);
    ("/srv/docs/b.txt", Regular "bee" t0);
    ("/srv/docs/zoo", Folder t0);
    ("/srv/docs/a.txt", Regular "ay" t0);
    ("/srv/docs/art", Folder t0);
    ("/srv/secret", Locked);
    ("/srv/loop", Looping);
    ("/srv/stale", Stale) ].

(** The same site after the custom error page was deleted. *)
Definition site_without_page : tree :=
  List.filter (fun kn => negb (String.eqb (fst kn) "/srv/404.html")) site.

(** The same site where [/srv/sub/index.html] exists but cannot be read. *)
Definition site_locked_index : tree :=
  site ++ [("/srv/sub/index.html", Locked)].

(** The same site without the SPA index. *)
Definition site_without_index : tree :=
  List.filter (fun kn => negb (String.eqb (fst kn) "/srv/index.html")) site.

Definition config (spa : bool) (page : string) (listing : bool) : Config :=
  mkConfig "/srv" listing ["index.html"; "index.htm"; "home.html"] spa
           "index.html" page
           (<["*" := "max-age=600"]> (<[".css" := "max-age=3600"]> ∅)).

Definition handler (spa : bool) (page : string) (listing : bool)
  : StatiqHandler :=
  make_handler "/srv" (config spa page listing)
               (if nonempty page then StatusOK else StatusNotFound).

Definition get (path query : string) : Request := mkRequest path query.

Definition h_plain : StatiqHandler := handler false "" false.
Definition h_page : StatiqHandler := handler false "404.html" false.
Definition h_spa : StatiqHandler := handler true "" false.
Definition h_spa_page : StatiqHandler := handler true "404.html" false.
Definition h_listing : StatiqHandler := handler false "" true.

End Mem.

(** * Properties *)

(** ** The library models on known values *)

Example Clean_collapses_slashes : path_Clean "/sub//index.html" = "/sub/index.html".
Proof. reflexivity. Qed.

Example Clean_dotdot_rooted : path_Clean "/a/../../b/./c/" = "/b/c".
Proof. reflexivity. Qed.

Example Clean_dotdot_relative :
  path_Clean "a/../.." = ".." /\ path_Clean "../../a/../b" = "../../b"
  /\ path_Clean "a/.." = "." /\ path_Clean "//" = "/".
Proof. repeat split; reflexivity. Qed.

(** Vectors from the test table of Go's [path] package. *)
Example Clean_known :
  map path_Clean
      [""; "abc/"; "abc//def//ghi"; "//abc//"; "abc/./def"; "abc/def/../..";
       "/abc/def/../../.."; "abc/def/../../../ghi/jkl/../../../mno";
       "abc/../../././../def"]
  = ["."; "abc"; "abc/def/ghi"; "/abc"; "abc/def"; "."; "/"; "../../mno";
     "../../def"].
Proof. reflexivity. Qed.

Example Join_known :
  path_Join "/sub/" "index.html" = "/sub/index.html"
  /\ path_Join "a/" "" = "a" /\ path_Join "" "" = ""
  /\ path_Join "/sub/" "../x" = "/x".
Proof. repeat split; reflexivity. Qed.

Example Ext_known :
  filepath_Ext "a/b.c/index.tar.gz" = ".gz" /\ filepath_Ext "a.b/c" = ""
  /\ filepath_Ext ".bashrc" = ".bashrc" /\ filepath_Ext "x." = ".".
Proof. repeat split; reflexivity. Qed.

Example TimeFormat_known :
  Format_TimeFormat (mkTime 0 0) = "Thu, 01 Jan 1970 00:00:00 GMT"
  /\ Format_TimeFormat (mkTime 951782400 0) = "Tue, 29 Feb 2000 00:00:00 GMT"
  /\ Format_TimeFormat (mkTime (-1) 0) = "Wed, 31 Dec 1969 23:59:59 GMT"
  /\ Format_listing (mkTime 1709251199 0) = "2024-02-29 23:59:59".
Proof. repeat split; vm_compute; reflexivity. Qed.

(** ** The response writer *)

Arguments Write : simpl never.
Arguments WriteHeader : simpl never.

Section Writer.
Context `{GoLib}.

Lemma WriteHeader_fresh code w :
  rw_wroteHeader w = false ->
  rw_status (WriteHeader code w) = code
  /\ rw_wroteHeader (WriteHeader code w) = true
  /\ rw_sent (WriteHeader code w) = rw_header w
  /\ rw_body (WriteHeader code w) = rw_body w.
Proof. intros Hw. unfold WriteHeader. rewrite Hw. cbn. auto. Qed.

Lemma WriteHeader_committed code w :
  rw_wroteHeader w = true -> WriteHeader code w = w.
Proof. intros Hw. unfold WriteHeader. now rewrite Hw. Qed.

(** [http.Error] on a writer whose header is not out yet: its code is the
    status, its message the body. *)
Lemma http_Error_fresh w msg code :
  rw_wroteHeader w = false ->
  rw_status (http_Error w msg code) = code
  /\ rw_body (http_Error w msg code) = rw_body w +:+ msg +:+ newline.
Proof.
  intros Hw. unfold http_Error, Write, Header_Set, Header_Del, WriteHeader.
  cbn. rewrite Hw. cbn. auto.
Qed.

(** [http.Error] after the header went out: the status stays, only the body
    grows. *)
Lemma http_Error_committed w msg code :
  rw_wroteHeader w = true ->
  rw_status (http_Error w msg code) = rw_status w
  /\ rw_sent (http_Error w msg code) = rw_sent w
  /\ rw_body (http_Error w msg code) = rw_body w +:+ msg +:+ newline.
Proof.
  intros Hw. unfold http_Error, Write, Header_Set, Header_Del, WriteHeader.
  cbn. rewrite Hw. cbn. rewrite ?Hw. auto.
Qed.

Lemma setCacheHeaders_state h w r d :
  rw_wroteHeader (setCacheHeaders h w r d) = rw_wroteHeader w
  /\ rw_status (setCacheHeaders h w r d) = rw_status w
  /\ rw_sent (setCacheHeaders h w r d) = rw_sent w
  /\ rw_body (setCacheHeaders h w r d) = rw_body w.
Proof.
  unfold setCacheHeaders.
  destruct (cacheControl h !! filepath_Ext (fi_Name d));
    [|destruct (cacheControl h !! "*")]; simpl; auto.
Qed.

Lemma reply_fresh code data w :
  rw_wroteHeader w = false ->
  rw_status (Write data (WriteHeader code w)) = code
  /\ rw_body (Write data (WriteHeader code w)) = rw_body w +:+ data
  /\ rw_sent (Write data (WriteHeader code w)) = rw_header w.
Proof. intros Hw. unfold Write, WriteHeader. rewrite Hw. cbn. auto. Qed.

Lemma reply_committed code data w :
  rw_wroteHeader w = true ->
  rw_status (Write data (WriteHeader code w)) = rw_status w
  /\ rw_body (Write data (WriteHeader code w)) = rw_body w +:+ data
  /\ rw_sent (Write data (WriteHeader code w)) = rw_sent w.
Proof.
  intros Hw. unfold Write, WriteHeader. rewrite Hw. cbn. rewrite Hw. auto.
Qed.

(** The writer [http.ServeContent] has built when it commits the status. *)
Lemma ServeContent_headers w name modtime data :
  let w1 := if isZeroTime modtime then w
            else Header_Set "Last-Modified"
                   (Format_TimeFormat (Time_UTC modtime)) w in
  let w2 := match rw_header w1 !! "Content-Type" with
            | Some _ => w1
            | None =>
                let byExt := mime_TypeByExtension (filepath_Ext name) in
                Header_Set "Content-Type"
                  (if String.eqb byExt "" then DetectContentType data
                   else byExt) w1
            end in
  let w3 := Header_Set "Accept-Ranges" "bytes" w2 in
  let w4 := match rw_header w3 !! "Content-Encoding" with
            | Some _ => w3
            | None => Header_Set "Content-Length" (pretty (len data)) w3
            end in
  rw_wroteHeader w4 = rw_wroteHeader w /\ rw_body w4 = rw_body w
  /\ rw_status w4 = rw_status w /\ rw_sent w4 = rw_sent w
  /\ rw_header w4 = content_headers w name modtime data.
Proof.
  unfold content_headers. cbv zeta.
  destruct (isZeroTime modtime); unfold Header_Set;
    cbn [rw_header rw_wroteHeader rw_body rw_status rw_sent].
  all: destruct (_ !! "Content-Type");
    cbn [rw_header rw_wroteHeader rw_body rw_status rw_sent].
  all: destruct (_ !! "Content-Encoding");
    cbn [rw_header rw_wroteHeader rw_body rw_status rw_sent]; auto.
Qed.

Lemma ServeContent_fresh w r name modtime f data :
  rw_wroteHeader w = false -> f_data f = inr data ->
  rw_status (http_ServeContent w r name modtime f) = StatusOK
  /\ rw_body (http_ServeContent w r name modtime f) = rw_body w +:+ data
  /\ rw_sent (http_ServeContent w r name modtime f)
     = content_headers w name modtime data.
Proof.
  intros Hw Hd. unfold http_ServeContent. rewrite Hd.
  destruct (ServeContent_headers w name modtime data)
    as (Hwrote & Hbody & _ & _ & Hheader).
  cbv zeta in *.
  match goal with
  | |- context [Write data (WriteHeader StatusOK ?w4)] =>
      rewrite Hw in Hwrote;
      destruct (reply_fresh StatusOK data w4 Hwrote) as (-> & -> & ->)
  end.
  rewrite Hbody, Hheader. auto.
Qed.

Lemma ServeContent_committed w r name modtime f data :
  rw_wroteHeader w = true -> f_data f = inr data ->
  rw_status (http_ServeContent w r name modtime f) = rw_status w
  /\ rw_sent (http_ServeContent w r name modtime f) = rw_sent w
  /\ rw_body (http_ServeContent w r name modtime f) = rw_body w +:+ data.
Proof.
  intros Hw Hd. unfold http_ServeContent. rewrite Hd.
  destruct (ServeContent_headers w name modtime data)
    as (Hwrote & Hbody & Hstatus & Hsent & _).
  cbv zeta in *.
  match goal with
  | |- context [Write data (WriteHeader StatusOK ?w4)] =>
      rewrite Hw in Hwrote;
      destruct (reply_committed StatusOK data w4 Hwrote) as (-> & -> & ->)
  end.
  rewrite Hbody, Hstatus, Hsent. auto.
Qed.

(** Whatever the content, [http.ServeContent] leaves a status that is out
    as it is. *)
Lemma ServeContent_keeps_status w r name modtime f :
  rw_wroteHeader w = true ->
  rw_status (http_ServeContent w r name modtime f) = rw_status w.
Proof.
  intros Hw. destruct (f_data f) as [e|data] eqn:Hdata.
  - unfold http_ServeContent. rewrite Hdata.
    destruct (isZeroTime modtime).
    + now apply http_Error_committed.
    + etransitivity; [apply http_Error_committed; exact Hw|reflexivity].
  - now apply ServeContent_committed with (data := data).
Qed.

(** Content that cannot be read gets 500 when the status is not out. *)
Lemma ServeContent_unreadable w r name modtime f e :
  rw_wroteHeader w = false -> f_data f = inl e ->
  rw_status (http_ServeContent w r name modtime f)
  = StatusInternalServerError.
Proof.
  intros Hw Hdata. unfold http_ServeContent. rewrite Hdata.
  destruct (isZeroTime modtime); apply http_Error_fresh; exact Hw.
Qed.

End Writer.

(** ** Cache headers *)

Section CacheHeaders.
Context `{GoLib} {W : Type} `{HostOps W}.

Lemma setCacheHeaders_lookups h w r d :
  rw_header (setCacheHeaders h w r d) !! "Cache-Control"
  = Some (CacheHeaderPolicy (cacheControl h) (filepath_Ext (fi_Name d)))
  /\ rw_header (setCacheHeaders h w r d) !! "Last-Modified"
     = Some (Format_TimeFormat (Time_UTC (fi_ModTime d))).
Proof.
  unfold setCacheHeaders, CacheHeaderPolicy, Header_Set.
  cbn [rw_header]. split.
  - rewrite lookup_insert_ne by done.
    destruct (cacheControl h !! filepath_Ext (fi_Name d)) as [v|];
      destruct (cacheControl h !! "*") as [v'|];
      cbn [rw_header]; now rewrite lookup_insert_eq.
  - now rewrite lookup_insert_eq.
Qed.

(** What [http.ServeContent] adds to the map leaves the two cache headers
    as [setCacheHeaders] set them. *)
Lemma content_headers_keep w name modtime data k v :
  k = "Cache-Control" \/
  (k = "Last-Modified" /\ v = Format_TimeFormat (Time_UTC modtime)) ->
  rw_header w !! k = Some v ->
  content_headers w name modtime data !! k = Some v.
Proof.
  intros Hk Hv. unfold content_headers.
  assert (Hm : (if isZeroTime modtime then rw_header w
                else <["Last-Modified" :=
                         Format_TimeFormat (Time_UTC modtime)]>
                       (rw_header w)) !! k = Some v).
  { destruct (isZeroTime modtime); [exact Hv|].
    destruct Hk as [-> | [-> ->]].
    - now rewrite lookup_insert_ne by done.
    - now rewrite lookup_insert_eq. }
  revert Hm. generalize (if isZeroTime modtime then rw_header w
                else <["Last-Modified" :=
                         Format_TimeFormat (Time_UTC modtime)]>
                       (rw_header w)).
  intros m Hm. cbv zeta.
  assert (Hk' : k <> "Content-Type" /\ k <> "Accept-Ranges"
                /\ k <> "Content-Length").
  { destruct Hk as [-> | [-> _]]; repeat split; discriminate. }
  destruct Hk' as (H1 & H2 & H3).
  destruct (m !! "Content-Type"); destruct (_ !! "Content-Encoding");
    rewrite ?lookup_insert_ne by congruence; exact Hm.
Qed.

(** C8.  [setCacheHeaders] puts into the header map the Cache-Control value
    of the exact extension, else of the wildcard, else max-age=86400, and a
    Last-Modified that is the modification time in UTC in the HTTP date
    layout, whatever zone the time stamp carries; a file the dispatcher
    serves goes out with both. *)
Theorem cache_headers_by_precedence (h : StatiqHandler) (world : W)
    (w : ResponseWriter) (r : Request) (d : FileInfo) :
  let ext := filepath_Ext (fi_Name d) in
  let w' := setCacheHeaders h w r d in
  rw_header w' !! "Cache-Control"
  = Some match cacheControl h !! ext with
         | Some exact => exact
         | None => match cacheControl h !! "*" with
                   | Some wildcard => wildcard
                   | None => "max-age=86400"
                   end
         end
  /\ rw_header w' !! "Cache-Control"
     = Some (CacheHeaderPolicy (cacheControl h) ext)
  /\ rw_header w' !! "Last-Modified"
     = Some (Format_TimeFormat (mkTime (t_unix (fi_ModTime d)) 0))
  /\ (forall f data,
        rw_wroteHeader w = false ->
        Dir_Open world (root h) (clean_upath r) = inr f ->
        f_Stat f = inr d -> fi_IsDir d = false -> f_data f = inr data ->
        sent_header "Cache-Control" (Statiq.ServeHTTP h world w r)
        = Some (CacheHeaderPolicy (cacheControl h) ext)
        /\ sent_header "Last-Modified" (Statiq.ServeHTTP h world w r)
           = Some (Format_TimeFormat (Time_UTC (fi_ModTime d)))).
Proof.
  cbv zeta.
  destruct (setCacheHeaders_lookups h w r d) as [Hcc Hlm].
  split; [|split; [exact Hcc|split; [exact Hlm|]]].
  - rewrite Hcc. unfold CacheHeaderPolicy.
    destruct (cacheControl h !! filepath_Ext (fi_Name d));
      destruct (cacheControl h !! "*"); reflexivity.
  - intros f data Hw Hopen Hstat Hdir Hdata.
    unfold Statiq.ServeHTTP. rewrite Hopen, Hstat, Hdir. cbv zeta.
    unfold sent_header.
    match goal with
    | |- context [http_ServeContent ?w1 r ?n ?t f] =>
        assert (Hw1 : rw_wroteHeader w1 = false
                      /\ rw_header w1 !! "Cache-Control"
                         = Some (CacheHeaderPolicy (cacheControl h)
                                   (filepath_Ext (fi_Name d)))
                      /\ rw_header w1 !! "Last-Modified"
                         = Some (Format_TimeFormat (Time_UTC (fi_ModTime d))));
        [|destruct Hw1 as (Hw1 & Hcc1 & Hlm1);
          destruct (ServeContent_fresh w1 r n t f data Hw1 Hdata)
            as (_ & _ & ->)]
    end.
    + destruct (setCacheHeaders_state h w r d) as (Hwrote & _).
      destruct (nonempty _); unfold Header_Set; cbn [rw_header rw_wroteHeader];
        rewrite ?lookup_insert_ne by done; rewrite Hwrote; auto.
    + split; apply content_headers_keep; auto.
Qed.

End CacheHeaders.

(** ** The trailing-slash test *)

Lemma last_byte_is_slash c s :
  option_map (fun b => negb (Ascii.eqb b slash))
             (String.get (String.length s) (String c s))
  = Some (negb (ends_with_slash (String c s))).
Proof.
  revert c. induction s as [|b s IH]; intros c; [reflexivity|].
  change (String.get (String.length (String b s)) (String c (String b s)))
    with (String.get (String.length s) (String b s)).
  rewrite IH. reflexivity.
Qed.

(** The unguarded test is out of range exactly on the empty path. *)
Lemma last_is_not_slash_spec url :
  last_is_not_slash url
  = match url with
    | EmptyString => None
    | String _ _ => Some (negb (ends_with_slash url))
    end.
Proof.
  unfold last_is_not_slash, byte_at, len. destruct url as [|c s].
  - reflexivity.
  - cbn [String.length].
    replace (Z.of_nat (S (String.length s)) - 1) with (Z.of_nat (String.length s))
      by lia.
    destruct (Z.ltb_spec (Z.of_nat (String.length s)) 0) as [Hneg|_]; [lia|].
    rewrite Nat2Z.id.
    pose proof (last_byte_is_slash c s) as Hlast.
    destruct (String.get (String.length s) (String c s)); [|discriminate].
    exact Hlast.
Qed.

(** The guarded test never is. *)
Lemma needs_slash_spec url :
  needs_slash url = Some (negb (ends_with_slash url)).
Proof.
  unfold needs_slash, len. destruct url as [|c s]; [reflexivity|].
  destruct (Z.eqb_spec (Z.of_nat (String.length (String c s))) 0) as [Hz|_].
  - cbn [String.length] in Hz. lia.
  - apply last_is_not_slash_spec.
Qed.

Lemma ends_with_slash_iff s :
  ends_with_slash s = true <-> exists p, s = p +:+ "/".
Proof.
  induction s as [|c s IH].
  - split; [discriminate|]. intros [[|? ?] Hp]; discriminate.
  - destruct s as [|b s].
    + cbn. split.
      * intros Hc. apply Ascii.eqb_eq in Hc. subst c. now exists "".
      * intros [[|a [|? ?]] Hp]; cbn in Hp; inversion Hp; subst; reflexivity.
    + change (ends_with_slash (String c (String b s)))
        with (ends_with_slash (String b s)).
      rewrite IH. split.
      * intros [p ->]. now exists (String c p).
      * intros [[|a p] Hp]; [discriminate|].
        inversion Hp; subst. now exists p.
Qed.

(** ** Construction *)

Section Construction.
Context `{GoLib} {W : Type} `{HostOps W}.

(** A handler [New] returns carries the configuration, and status 200 for
    the custom page exactly when one is configured. *)
Lemma New_handler (world world' : W) (config : Config) (h : StatiqHandler) :
  Statiq.New world config = (world', inr h) ->
  handler_ok h
  /\ root h = rootPath h
  /\ errorPage404 h = ErrorPage404 config
  /\ spaMode h = SPAMode config
  /\ indexFiles h = IndexFiles config.
Proof.
  unfold Statiq.New, handler_ok.
  destruct (filepath_Abs world (Root config)) as [?|dir]; [discriminate|].
  destruct (match os_Stat world dir with
            | inl err => if os_IsNotExist err then os_MkdirAll world dir
                         else inr world
            | inr _ => inr world
            end) as [?|world1]; [discriminate|].
  destruct (nonempty (ErrorPage404 config)) eqn:Hpage.
  - destruct (os_Stat world1 _) as [err|?];
      [destruct (os_IsNotExist err); [discriminate|]|];
      intros Hnew; inversion Hnew; subst; cbn; rewrite Hpage; auto.
  - intros Hnew; inversion Hnew; subst; cbn; rewrite Hpage; auto.
Qed.

Lemma NewB_handler (world : W) (config : Config) (h : StatiqHandler) :
  StatiqB.New world config = inr h ->
  handler_ok h /\ root h = rootPath h
  /\ errorPage404 h = ErrorPage404 config.
Proof.
  unfold StatiqB.New, handler_ok.
  destruct (filepath_Abs world (Root config)) as [?|dir]; [discriminate|].
  destruct (match os_Stat world dir with
            | inl err => os_IsNotExist err
            | inr _ => false
            end); [discriminate|].
  destruct (nonempty (ErrorPage404 config)) eqn:Hpage.
  - destruct (os_Stat world _) as [err|?];
      [destruct (os_IsNotExist err); [discriminate|]|];
      intros Hnew; inversion Hnew; subst; cbn; rewrite Hpage; auto.
  - intros Hnew; inversion Hnew; subst; cbn; rewrite Hpage; auto.
Qed.

End Construction.

(** ** Serving one file *)

Section ServeFile.
Context `{GoLib} {W : Type} `{HostOps W}.

(** [serveFile] of a readable file on a writer whose header is not out:
    status 200 and the file's bytes. *)
Lemma serveFile_fresh h (world : W) w r filePath f d data :
  rw_wroteHeader w = false ->
  os_Open world filePath = inr f -> f_Stat f = inr d -> f_data f = inr data ->
  rw_status (Statiq.serveFile h world w r filePath) = StatusOK
  /\ rw_body (Statiq.serveFile h world w r filePath) = rw_body w +:+ data.
Proof.
  intros Hw Hopen Hstat Hdata. unfold Statiq.serveFile.
  rewrite Hopen, Hstat. cbv zeta.
  match goal with
  | |- context [http_ServeContent ?w1 r ?n ?t f] =>
      assert (Hw1 : rw_wroteHeader w1 = false /\ rw_body w1 = rw_body w);
      [|destruct Hw1 as [Hw1 Hb1];
        destruct (ServeContent_fresh w1 r n t f data Hw1 Hdata)
          as (-> & -> & _); rewrite Hb1; auto]
  end.
  destruct (setCacheHeaders_state h w r d) as (Hwrote & _ & _ & Hbody).
  destruct (nonempty _); unfold Header_Set; cbn [rw_wroteHeader rw_body];
    rewrite Hwrote, Hbody; auto.
Qed.

(** The same after the status went out: the status stays what it was. *)
Lemma serveFile_committed h (world : W) w r filePath f d data :
  rw_wroteHeader w = true ->
  os_Open world filePath = inr f -> f_Stat f = inr d -> f_data f = inr data ->
  rw_status (Statiq.serveFile h world w r filePath) = rw_status w
  /\ rw_sent (Statiq.serveFile h world w r filePath) = rw_sent w
  /\ rw_body (Statiq.serveFile h world w r filePath) = rw_body w +:+ data.
Proof.
  intros Hw Hopen Hstat Hdata. unfold Statiq.serveFile.
  rewrite Hopen, Hstat. cbv zeta.
  match goal with
  | |- context [http_ServeContent ?w1 r ?n ?t f] =>
      assert (Hw1 : rw_wroteHeader w1 = true /\ rw_body w1 = rw_body w
                    /\ rw_status w1 = rw_status w /\ rw_sent w1 = rw_sent w);
      [|destruct Hw1 as (Hw1 & Hb1 & Hs1 & Hh1);
        destruct (ServeContent_committed w1 r n t f data Hw1 Hdata)
          as (-> & -> & ->); rewrite Hb1, Hs1, Hh1; auto]
  end.
  destruct (setCacheHeaders_state h w r d) as (Hwrote & Hst & Hsent & Hbody).
  destruct (nonempty _); unfold Header_Set;
    cbn [rw_wroteHeader rw_body rw_status rw_sent];
    rewrite Hwrote, Hbody, Hst, Hsent; auto.
Qed.

(** [serveFile] of a file that cannot be opened, or whose [Stat] fails,
    after the status went out: the 500 it asks for is dropped. *)
Lemma serveFile_failure_committed h (world : W) w r filePath :
  rw_wroteHeader w = true ->
  (exists e, os_Open world filePath = inl e)
  \/ (exists f e, os_Open world filePath = inr f /\ f_Stat f = inl e) ->
  rw_status (Statiq.serveFile h world w r filePath) = rw_status w
  /\ rw_sent (Statiq.serveFile h world w r filePath) = rw_sent w
  /\ rw_body (Statiq.serveFile h world w r filePath)
     = rw_body w +:+ "Internal Server Error" +:+ newline.
Proof.
  intros Hw [[e Hopen] | (f & e & Hopen & Hstat)]; unfold Statiq.serveFile;
    rewrite Hopen; [|rewrite Hstat]; apply http_Error_committed, Hw.
Qed.

(** On a writer whose status is not out, [serveFile] replies 200 when the
    file is readable and 500 when it is not, in both handlers. *)
Lemma serveFile_status h (world : W) w r filePath :
  rw_wroteHeader w = false ->
  (readable world filePath
   /\ rw_status (Statiq.serveFile h world w r filePath) = StatusOK
   /\ rw_status (StatiqB.serveFile h world w r filePath) = StatusOK)
  \/ (~ readable world filePath
      /\ rw_status (Statiq.serveFile h world w r filePath)
         = StatusInternalServerError
      /\ rw_status (StatiqB.serveFile h world w r filePath)
         = StatusInternalServerError).
Proof.
  intros Hw. unfold readable, Statiq.serveFile, StatiqB.serveFile.
  destruct (os_Open world filePath) as [e|f].
  { right. split; [intros (? & ? & ? & ? & _); discriminate|].
    split; now apply http_Error_fresh. }
  destruct (f_Stat f) as [e|d] eqn:Hstat.
  { right. split.
    - intros (f' & ? & ? & Hf & Hs & _). inversion Hf; subst. congruence.
    - split; now apply http_Error_fresh. }
  cbv zeta.
  destruct (setCacheHeaders_state h w r d) as (Hwrote & _).
  rewrite Hw in Hwrote.
  assert (Hw1 : rw_wroteHeader
                  (if nonempty (mime_TypeByExtension
                                  (filepath_Ext (fi_Name d)))
                   then Header_Set "Content-Type"
                          (mime_TypeByExtension (filepath_Ext (fi_Name d)))
                          (setCacheHeaders h w r d)
                   else setCacheHeaders h w r d) = false).
  { destruct (nonempty _); exact Hwrote. }
  destruct (f_data f) as [e|data] eqn:Hdata.
  - right. split.
    + intros (f' & ? & ? & Hf & _ & Hd). inversion Hf; subst. congruence.
    + split; eapply ServeContent_unreadable; eassumption.
  - left. split; [now exists f, d, data|].
    split; eapply ServeContent_fresh; eassumption.
Qed.

(** Once the status is out, [serveFile] cannot change it. *)
Lemma serveFile_keeps_status h (world : W) w r filePath :
  rw_wroteHeader w = true ->
  rw_status (Statiq.serveFile h world w r filePath) = rw_status w
  /\ rw_status (StatiqB.serveFile h world w r filePath) = rw_status w.
Proof.
  intros Hw. unfold Statiq.serveFile, StatiqB.serveFile.
  destruct (os_Open world filePath) as [e|f];
    [split; now apply http_Error_committed|].
  destruct (f_Stat f) as [e|d]; [split; now apply http_Error_committed|].
  cbv zeta.
  destruct (setCacheHeaders_state h w r d) as (Hwrote & Hstatus & _).
  rewrite Hw in Hwrote. split.
  - rewrite ServeContent_keeps_status; [|now destruct (nonempty _)].
    now destruct (nonempty _).
  - now rewrite ServeContent_keeps_status.
Qed.

End ServeFile.

(** ** Failures of open and stat *)

Section Failures.
Context `{GoLib} {W : Type} `{HostOps W}.

(** What rule 3 replies: never 403, and 500 only when it is to serve the
    SPA index and that file is not readable. *)
Lemma rule3_status h (world : W) w r :
  handler_ok h -> rw_wroteHeader w = false ->
  (rw_status (Statiq.rule3 h world w r) <> StatusForbidden
   /\ (rw_status (Statiq.rule3 h world w r) = StatusInternalServerError ->
       spaMode h = true
       /\ ~ readable world (filepath_Join (rootPath h) (spaIndex h))))
  /\ (rw_status (StatiqB.rule3 h world w r) <> StatusForbidden
      /\ (rw_status (StatiqB.rule3 h world w r) = StatusInternalServerError ->
          spaMode h = true
          /\ ~ readable world (filepath_Join (root h) (spaIndex h)))).
Proof.
  intros Hok Hw. unfold Statiq.rule3, StatiqB.rule3.
  destruct (spaMode h).
  - split.
    + destruct (serveFile_status h world w r
                  (filepath_Join (rootPath h) (spaIndex h)) Hw)
        as [(_ & -> & _) | (Hno & -> & _)];
        split; try discriminate; auto.
    + destruct (serveFile_status h world w r
                  (filepath_Join (root h) (spaIndex h)) Hw)
        as [(_ & _ & ->) | (Hno & _ & ->)];
        split; try discriminate; auto.
  - destruct (nonempty (errorPage404 h)).
    + destruct (WriteHeader_fresh StatusOK w Hw) as (Hst & Hwrote & _).
      destruct (serveFile_keeps_status h world (WriteHeader StatusOK w) r
                  (filepath_Join (rootPath h) (errorPage404 h)) Hwrote)
        as [-> _].
      destruct (serveFile_keeps_status h world (WriteHeader StatusOK w) r
                  (filepath_Join (root h) (errorPage404 h)) Hwrote)
        as [_ ->].
      rewrite Hst. repeat split; discriminate.
    + unfold http_NotFound.
      destruct (http_Error_fresh w "404 page not found" StatusNotFound Hw)
        as [-> _].
      repeat split; discriminate.
Qed.

(** C1 (amended).  When opening the request path fails with anything but a
    not-exist error, permission denied or not, both handlers reply 403;
    when the open succeeds and [Stat] fails they reply 500; a path that does
    not exist gets the reply of rule 3, which is never 403, and is 500 only
    when the SPA index is to be served and is not readable. *)
Theorem open_and_stat_failures (h : StatiqHandler) (world : W)
    (w : ResponseWriter) (r : Request) :
  handler_ok h -> rw_wroteHeader w = false ->
  let opened := Dir_Open world (root h) (clean_upath r) in
  (forall e, opened = inl e -> os_IsNotExist e = false ->
     status_of (Statiq.ServeHTTP h world w r) = Some StatusForbidden
     /\ status_of (StatiqB.ServeHTTP h world w r) = Some StatusForbidden)
  /\ (forall f e, opened = inr f -> f_Stat f = inl e ->
     status_of (Statiq.ServeHTTP h world w r) = Some StatusInternalServerError
     /\ status_of (StatiqB.ServeHTTP h world w r)
        = Some StatusInternalServerError)
  /\ (forall e, opened = inl e -> os_IsNotExist e = true ->
     Statiq.ServeHTTP h world w r = Returned (Statiq.rule3 h world w r)
     /\ StatiqB.ServeHTTP h world w r = Returned (StatiqB.rule3 h world w r)
     /\ status_of (Statiq.ServeHTTP h world w r) <> Some StatusForbidden
     /\ status_of (StatiqB.ServeHTTP h world w r) <> Some StatusForbidden
     /\ (status_of (Statiq.ServeHTTP h world w r)
         = Some StatusInternalServerError ->
         spaMode h = true
         /\ ~ readable world (filepath_Join (rootPath h) (spaIndex h)))
     /\ (status_of (StatiqB.ServeHTTP h world w r)
         = Some StatusInternalServerError ->
         spaMode h = true
         /\ ~ readable world (filepath_Join (root h) (spaIndex h)))).
Proof.
  intros Hok Hw opened. subst opened. split; [|split].
  - intros e Hopen Hother.
    unfold Statiq.ServeHTTP, StatiqB.ServeHTTP. rewrite Hopen, Hother.
    cbn [status_of]. split; f_equal; apply http_Error_fresh, Hw.
  - intros f e Hopen Hstat.
    unfold Statiq.ServeHTTP, StatiqB.ServeHTTP. rewrite Hopen, Hstat.
    cbn [status_of]. split; f_equal; apply http_Error_fresh, Hw.
  - intros e Hopen Hmissing.
    assert (HA : Statiq.ServeHTTP h world w r
                 = Returned (Statiq.rule3 h world w r)).
    { unfold Statiq.ServeHTTP, Statiq.rule3.
      rewrite Hopen, Hmissing. unfold handler_ok in Hok.
      destruct (spaMode h); [reflexivity|].
      destruct (nonempty (errorPage404 h)); [|reflexivity].
      cbv zeta. now rewrite Hok. }
    assert (HB : StatiqB.ServeHTTP h world w r
                 = Returned (StatiqB.rule3 h world w r)).
    { unfold StatiqB.ServeHTTP, StatiqB.rule3.
      rewrite Hopen, Hmissing. unfold handler_ok in Hok.
      destruct (spaMode h); [reflexivity|].
      destruct (nonempty (errorPage404 h)); [|reflexivity].
      cbv zeta. now rewrite Hok. }
    destruct (rule3_status h world w r Hok Hw)
      as ((HA403 & HA500) & (HB403 & HB500)).
    rewrite HA, HB. cbn [status_of].
    split; [reflexivity|split; [reflexivity|]].
    split; [congruence|split; [congruence|]].
    split; intros Hs; inversion Hs; auto.
Qed.

End Failures.

(** ** The dispatcher *)

Section Dispatcher.
Context `{GoLib} {W : Type} `{HostOps W}.

(** The index loop returns nothing exactly when no candidate opens. *)
Lemma find_index_none h (world : W) upath indexes :
  (forall index, In index indexes ->
     exists e, Dir_Open world (root h) (path_Join upath index) = inl e) ->
  Statiq.find_index h world upath indexes = None
  /\ StatiqB.find_index h world upath indexes = None.
Proof.
  induction indexes as [|index rest IH]; intros Hall; [split; reflexivity|].
  cbn [Statiq.find_index StatiqB.find_index]. unfold filepath_Join.
  destruct (Hall index (or_introl eq_refl)) as [e ->].
  apply IH. intros i Hi. apply Hall. now right.
Qed.

(** It returns the first candidate that opens, whatever follows it. *)
Lemma find_index_first h (world : W) upath before index after :
  (forall i, In i before ->
     exists e, Dir_Open world (root h) (path_Join upath i) = inl e) ->
  (exists f, Dir_Open world (root h) (path_Join upath index) = inr f) ->
  Statiq.find_index h world upath (before ++ index :: after)
  = Some (path_Join upath index).
Proof.
  intros Hbefore [f Hopen].
  induction before as [|i before IH]; cbn [app Statiq.find_index].
  - now rewrite Hopen.
  - destruct (Hbefore i (or_introl eq_refl)) as [e ->].
    apply IH. intros j Hj. apply Hbefore. now right.
Qed.

(** The first handler always returns. *)
Lemma ServeHTTP_returns h (world : W) w r :
  exists w', Statiq.ServeHTTP h world w r = Returned w'.
Proof.
  unfold Statiq.ServeHTTP.
  destruct (Dir_Open world (root h) (clean_upath r)) as [e|f].
  - destruct (os_IsNotExist e); [|eauto].
    destruct (spaMode h); [eauto|].
    destruct (nonempty (errorPage404 h)); eauto.
  - destruct (f_Stat f) as [?|d]; [eauto|].
    destruct (fi_IsDir d); [|eauto].
    rewrite needs_slash_spec.
    destruct (negb (ends_with_slash (URL_Path r))); [eauto|].
    destruct (Statiq.find_index _ _ _ _); [eauto|].
    destruct (negb (enableDirListing h)); [|eauto].
    destruct (nonempty (errorPage404 h)); eauto.
Qed.

(** The second one panics exactly on an empty path that resolves to a
    directory. *)
Lemma ServeHTTP_B_panics h (world : W) w r :
  (exists msg, StatiqB.ServeHTTP h world w r = Panicked msg)
  <-> URL_Path r = ""
      /\ exists f d, Dir_Open world (root h) "/" = inr f
                     /\ f_Stat f = inr d /\ fi_IsDir d = true.
Proof.
  unfold StatiqB.ServeHTTP, clean_upath. split.
  - intros [msg Hpanic]. revert Hpanic.
    destruct (URL_Path r) as [|c s] eqn:Hpath.
    + cbn [HasPrefix String.prefix].
      destruct (Dir_Open world (root h) ("/" +:+ "")) as [e|f] eqn:Hopen.
      * destruct (os_IsNotExist e); [|discriminate].
        destruct (spaMode h); [discriminate|].
        destruct (nonempty (errorPage404 h)); discriminate.
      * destruct (f_Stat f) as [?|d] eqn:Hstat; [discriminate|].
        destruct (fi_IsDir d) eqn:Hdir; [|discriminate].
        intros _. split; [reflexivity|]. exists f, d. auto.
    + destruct (Dir_Open world (root h) _) as [e|f].
      * destruct (os_IsNotExist e); [|discriminate].
        destruct (spaMode h); [discriminate|].
        destruct (nonempty (errorPage404 h)); discriminate.
      * destruct (f_Stat f) as [?|d]; [discriminate|].
        destruct (fi_IsDir d); [|discriminate].
        rewrite last_is_not_slash_spec.
        destruct (negb (ends_with_slash (String c s))); [discriminate|].
        destruct (StatiqB.find_index _ _ _ _); [discriminate|].
        destruct (negb (enableDirListing h)); [|discriminate].
        destruct (nonempty (errorPage404 h)); discriminate.
  - intros (Hpath & f & d & Hopen & Hstat & Hdir). rewrite Hpath.
    cbn [HasPrefix String.prefix].
    change ("/" +:+ "") with "/". rewrite Hopen, Hstat, Hdir.
    cbn. eauto.
Qed.

End Dispatcher.

Section Claims.
Context `{GoLib} {W : Type} `{HostOps W}.


(** C3.  With [spaMode] on, a request whose path does not exist is answered
    by [serveFile] of [root/spaIndex], whatever the path and whether or not
    an error page is configured: status 200 and the bytes of that file. *)
Theorem spa_fallback_reply (h : StatiqHandler) (world : W)
    (w : ResponseWriter) (r : Request) (e : go_error) (f : File)
    (d : FileInfo) (data : string) :
  unwritten w -> spaMode h = true ->
  Dir_Open world (root h) (clean_upath r) = inl e -> os_IsNotExist e = true ->
  os_Open world (filepath_Join (rootPath h) (spaIndex h)) = inr f ->
  f_Stat f = inr d -> f_data f = inr data ->
  Statiq.ServeHTTP h world w r
  = Returned (Statiq.serveFile h world w r
                (filepath_Join (rootPath h) (spaIndex h)))
  /\ status_of (Statiq.ServeHTTP h world w r) = Some StatusOK
  /\ body_of (Statiq.ServeHTTP h world w r) = Some data.
Proof.
  intros [Hw Hbody] Hspa Hopen Hmissing Hindex Hstat Hdata.
  assert (Hserve : Statiq.ServeHTTP h world w r
                   = Returned (Statiq.serveFile h world w r
                                 (filepath_Join (rootPath h) (spaIndex h)))).
  { unfold Statiq.ServeHTTP. now rewrite Hopen, Hmissing, Hspa. }
  rewrite Hserve. cbn [status_of body_of].
  destruct (serveFile_fresh h world w r _ f d data Hw Hindex Hstat Hdata)
    as [-> ->].
  rewrite Hbody. auto.
Qed.

(** C4.  A handler [New] built with an error page keeps status 200 for it;
    with [spaMode] off, a request whose path does not exist gets that
    status and the bytes of the page. *)
Theorem error_page_reply (world0 world1 : W) (config : Config)
    (h : StatiqHandler) (world : W) (w : ResponseWriter) (r : Request)
    (e : go_error) (f : File) (d : FileInfo) (data : string) :
  Statiq.New world0 config = (world1, inr h) ->
  nonempty (ErrorPage404 config) = true -> SPAMode config = false ->
  unwritten w ->
  Dir_Open world (root h) (clean_upath r) = inl e -> os_IsNotExist e = true ->
  os_Open world (filepath_Join (rootPath h) (errorPage404 h)) = inr f ->
  f_Stat f = inr d -> f_data f = inr data ->
  notFoundResponseCode h = StatusOK
  /\ status_of (Statiq.ServeHTTP h world w r) = Some StatusOK
  /\ body_of (Statiq.ServeHTTP h world w r) = Some data.
Proof.
  intros Hnew Hpage Hspa [Hw Hbody] Hopen Hmissing Hfile Hstat Hdata.
  destruct (New_handler _ _ _ _ Hnew) as (Hok & _ & Hp & Hs & _).
  unfold handler_ok in Hok. rewrite Hp, Hpage in Hok.
  split; [exact Hok|].
  unfold Statiq.ServeHTTP. rewrite Hopen, Hmissing, Hs, Hspa, Hp, Hpage.
  cbv zeta. cbn [status_of body_of]. rewrite Hok.
  destruct (WriteHeader_fresh StatusOK w Hw) as (Hst & Hwrote & _ & Hb).
  rewrite <- Hp.
  destruct (serveFile_committed h world (WriteHeader StatusOK w) r _ f d data
              Hwrote Hfile Hstat Hdata) as (-> & _ & ->).
  rewrite Hst, Hb, Hbody. auto.
Qed.

(** C6.  A directory requested without trailing slash is answered 301 with
    Location the original path, a slash, and, when the raw query is not
    empty, a question mark and the raw query. *)
Theorem directory_slash_redirect (h : StatiqHandler) (world : W)
    (w : ResponseWriter) (r : Request) (f : File) (d : FileInfo) :
  rw_wroteHeader w = false ->
  Dir_Open world (root h) (clean_upath r) = inr f ->
  f_Stat f = inr d -> fi_IsDir d = true ->
  ends_with_slash (URL_Path r) = false ->
  status_of (Statiq.ServeHTTP h world w r) = Some StatusMovedPermanently
  /\ sent_header "Location" (Statiq.ServeHTTP h world w r)
     = Some (if nonempty (URL_RawQuery r)
             then (URL_Path r +:+ "/") +:+ "?" +:+ URL_RawQuery r
             else URL_Path r +:+ "/").
Proof.
  intros Hw Hopen Hstat Hdir Hslash.
  unfold Statiq.ServeHTTP. rewrite Hopen, Hstat, Hdir.
  rewrite needs_slash_spec, Hslash. cbn [negb status_of sent_header].
  unfold localRedirect.
  match goal with
  | |- context [WriteHeader ?c (Header_Set ?k ?v w)] =>
      destruct (WriteHeader_fresh c (Header_Set k v w) Hw)
        as (-> & _ & -> & _)
  end.
  split; [reflexivity|].
  unfold Header_Set. cbn [rw_header]. apply lookup_insert_eq.
Qed.

(** C10.  With an error page configured and [spaMode] off, the reply to a
    path that does not exist is [serveFile] run on a writer whose status
    200 is already out; when the page cannot be opened, or its [Stat]
    fails, the client gets status 200 with the error text as body. *)
Theorem error_page_status_committed (world0 world1 : W) (config : Config)
    (h : StatiqHandler) (world : W) (w : ResponseWriter) (r : Request)
    (e : go_error) :
  Statiq.New world0 config = (world1, inr h) ->
  nonempty (ErrorPage404 config) = true -> SPAMode config = false ->
  unwritten w ->
  Dir_Open world (root h) (clean_upath r) = inl e -> os_IsNotExist e = true ->
  let page := filepath_Join (rootPath h) (errorPage404 h) in
  ((exists e', os_Open world page = inl e')
   \/ (exists f e', os_Open world page = inr f /\ f_Stat f = inl e')) ->
  Statiq.ServeHTTP h world w r
  = Returned (Statiq.serveFile h world (WriteHeader StatusOK w) r page)
  /\ rw_wroteHeader (WriteHeader StatusOK w) = true
  /\ rw_status (WriteHeader StatusOK w) = StatusOK
  /\ status_of (Statiq.ServeHTTP h world w r) = Some StatusOK
  /\ body_of (Statiq.ServeHTTP h world w r)
     = Some ("Internal Server Error" +:+ newline).
Proof.
  intros Hnew Hpage Hspa [Hw Hbody] Hopen Hmissing page Hfail.
  destruct (New_handler _ _ _ _ Hnew) as (Hok & _ & Hp & Hs & _).
  unfold handler_ok in Hok. rewrite Hp, Hpage in Hok.
  destruct (WriteHeader_fresh StatusOK w Hw) as (Hst & Hwrote & _ & Hb).
  assert (Hserve : Statiq.ServeHTTP h world w r
                   = Returned (Statiq.serveFile h world
                                 (WriteHeader StatusOK w) r page)).
  { unfold Statiq.ServeHTTP.
    rewrite Hopen, Hmissing, Hs, Hspa, Hp, Hpage. cbv zeta.
    rewrite Hok. subst page. now rewrite Hp. }
  rewrite Hserve. cbn [status_of body_of].
  destruct (serveFile_failure_committed h world (WriteHeader StatusOK w) r
              page Hwrote Hfail) as (-> & _ & ->).
  rewrite Hst, Hb, Hbody. auto.
Qed.

End Claims.

(** ** Joining a clean directory path and a file name *)

Lemma app_String c s t : String c s +:+ t = String c (s +:+ t).
Proof. reflexivity. Qed.

Lemma app_assoc_string (a b c : string) : (a +:+ b) +:+ c = a +:+ b +:+ c.
Proof.
  induction a as [|x a IH]; [reflexivity|].
  rewrite !app_String. now rewrite IH.
Qed.

Lemma split_slash_nonempty s : split_slash s <> [].
Proof.
  destruct s as [|c s]; [discriminate|]. cbn [split_slash].
  destruct (Ascii.eqb c slash); [discriminate|].
  destruct (split_slash s); discriminate.
Qed.

Lemma split_slash_plain s : has_slash s = false -> split_slash s = [s].
Proof.
  induction s as [|c s IH]; [reflexivity|]. cbn [has_slash split_slash].
  intros Hs. apply orb_false_iff in Hs as [Hc Hs]. rewrite Hc, (IH Hs).
  reflexivity.
Qed.

Lemma split_slash_element seg rest :
  has_slash seg = false ->
  split_slash (seg +:+ String slash rest) = seg :: split_slash rest.
Proof.
  induction seg as [|c seg IH]; intros Hs.
  - change ("" +:+ String slash rest) with (String slash rest).
    reflexivity.
  - cbn [has_slash] in Hs. apply orb_false_iff in Hs as [Hc Hs].
    rewrite app_String. cbn [split_slash]. rewrite Hc, (IH Hs). reflexivity.
Qed.

Lemma plain_name_facts s :
  plain_name s = true ->
  String.eqb s "" = false /\ String.eqb s "." = false
  /\ String.eqb s dotdot = false /\ has_slash s = false.
Proof.
  unfold plain_name. rewrite !andb_true_iff, !negb_true_iff. tauto.
Qed.

Lemma split_slash_dir_body segs tail :
  Forall (fun s => plain_name s = true) segs ->
  split_slash (dir_body segs +:+ tail) = segs ++ split_slash tail.
Proof.
  induction 1 as [|seg segs Hseg _ IH]; [reflexivity|].
  cbn [dir_body]. rewrite app_assoc_string, app_String.
  rewrite split_slash_element by now apply plain_name_facts.
  now rewrite IH.
Qed.

Lemma clean_step_plain rooted stack seg :
  plain_name seg = true -> clean_step rooted stack seg = seg :: stack.
Proof.
  intros Hs. destruct (plain_name_facts seg Hs) as (H1 & H2 & H3 & _).
  unfold clean_step. now rewrite H1, H2, H3.
Qed.

Lemma fold_clean_plain rooted segs stack :
  Forall (fun s => plain_name s = true) segs ->
  fold_left (clean_step rooted) segs stack = rev segs ++ stack.
Proof.
  intros Hall. revert stack.
  induction Hall as [|seg segs Hseg _ IH]; intros stack; [reflexivity|].
  cbn [fold_left rev]. rewrite clean_step_plain by assumption.
  rewrite IH. now rewrite <- List.app_assoc.
Qed.

Lemma join_slash_dir_body segs index :
  join_slash (segs ++ [index]) = dir_body segs +:+ index.
Proof.
  induction segs as [|seg segs IH]; [reflexivity|].
  cbn [app dir_body]. rewrite app_assoc_string, app_String, <- IH.
  cbn [join_slash]. destruct (segs ++ [index]) eqn:Hl; [|reflexivity].
  now destruct segs.
Qed.

Lemma HasPrefix_dir_path segs : HasPrefix (dir_path segs) "/" = true.
Proof.
  unfold HasPrefix, dir_path. cbn [String.prefix].
  destruct (ascii_dec "/" slash) as [_|Hne]; [|now elim Hne].
  now destruct (dir_body segs).
Qed.

(** For a clean directory path and a plain file name, [path.Join] is the
    concatenation. *)
Lemma path_Join_clean_dir segs index :
  Forall (fun s => plain_name s = true) segs -> plain_name index = true ->
  path_Join (dir_path segs) index = dir_path segs +:+ index.
Proof.
  intros Hsegs Hindex.
  destruct (plain_name_facts index Hindex) as (Hne & _ & _ & Hslash).
  unfold path_Join, dir_path.
  destruct index as [|c index]; [discriminate|].
  rewrite app_String. unfold path_Clean.
  change (Ascii.eqb slash slash) with true. cbv zeta.
  change (split_slash (String slash (dir_body segs +:+ String slash (String c index))))
    with (EmptyString :: split_slash (dir_body segs +:+ String slash (String c index))).
  rewrite split_slash_dir_body by assumption.
  change (split_slash (String slash (String c index)))
    with (EmptyString :: split_slash (String c index)).
  rewrite split_slash_plain by assumption.
  cbn [fold_left]. change (clean_step true [] "") with (@nil string).
  rewrite fold_left_app, (fold_clean_plain true segs [] Hsegs).
  cbn [fold_left]. rewrite app_nil_r.
  change (clean_step true (rev segs) "") with (rev segs).
  rewrite clean_step_plain by assumption.
  cbn [rev]. rewrite rev_involutive, join_slash_dir_body.
  reflexivity.
Qed.

(** ** Sorting the listing *)

Section Sorting.
Variable A : Type.
Variable lt : A -> A -> bool.

Hypothesis lt_asym : forall x y, lt x y = true -> lt y x = false.
Hypothesis precede_trans :
  forall x y z,
    may_precede lt x y -> may_precede lt y z -> may_precede lt x z.

Lemma insert_sorted_perm x l : Permutation (x :: l) (insert_sorted lt x l).
Proof.
  induction l as [|y l IH]; cbn [insert_sorted]; [reflexivity|].
  destruct (lt x y); [reflexivity|].
  rewrite perm_swap. now apply perm_skip.
Qed.

Lemma insert_sorted_sorted x l :
  StronglySorted (may_precede lt) l ->
  StronglySorted (may_precede lt) (insert_sorted lt x l).
Proof.
  induction 1 as [|y l Hsorted IH Hy]; cbn [insert_sorted].
  - repeat constructor.
  - destruct (lt x y) eqn:Hxy.
    + assert (Hpre : may_precede lt x y) by (apply lt_asym, Hxy).
      constructor; [now constructor|].
      constructor; [exact Hpre|].
      eapply Forall_impl; [exact Hy|].
      intros z Hz. cbn beta in Hz. exact (precede_trans x y z Hpre Hz).
    + constructor; [exact IH|].
      eapply Permutation_Forall; [apply insert_sorted_perm|].
      constructor; [exact Hxy|exact Hy].
Qed.

Lemma sort_Slice_perm l : Permutation l (sort_Slice lt l).
Proof.
  induction l as [|x l IH]; [reflexivity|]. cbn [sort_Slice fold_right].
  etransitivity; [apply perm_skip, IH|apply insert_sorted_perm].
Qed.

Lemma sort_Slice_sorted l :
  StronglySorted (may_precede lt) (sort_Slice lt l).
Proof.
  induction l as [|x l IH]; [constructor|].
  cbn [sort_Slice fold_right]. now apply insert_sorted_sorted.
Qed.

End Sorting.

Lemma StronglySorted_lookup {A} (R : A -> A -> Prop) (l : list A) i j a b :
  StronglySorted R l -> (i < j)%nat -> l !! i = Some a -> l !! j = Some b ->
  R a b.
Proof.
  intros Hsorted. revert i j.
  induction Hsorted as [|x l _ IH Hx]; intros i j Hij Hi Hj; [discriminate|].
  destruct j as [|j]; [lia|]. cbn in Hj. destruct i as [|i].
  - cbn in Hi. inversion Hi; subst. rewrite Forall_forall in Hx.
    apply Hx. eapply list_elem_of_lookup_2, Hj.
  - cbn in Hi. apply (IH i j); [lia|assumption..].
Qed.

Lemma ltb_false_leb a b : String.ltb b a = false <-> String.leb a b = true.
Proof.
  unfold String.ltb, String.leb. rewrite (String.compare_antisym b a).
  destruct (String.compare a b); cbn; split; congruence.
Qed.

Lemma less_may_precede a b :
  may_precede less a b <-> listing_le (to_dirEntry a) (to_dirEntry b).
Proof.
  unfold may_precede, less, listing_le. cbn [to_dirEntry IsDir Name].
  destruct (fi_IsDir a), (fi_IsDir b); cbn [andb negb];
    rewrite ?ltb_false_leb; intuition congruence.
Qed.

Lemma less_asym a b : less a b = true -> less b a = false.
Proof.
  unfold less. destruct (fi_IsDir a), (fi_IsDir b); cbn [andb negb];
    try discriminate; try reflexivity.
  all: unfold String.ltb; rewrite (String.compare_antisym (fi_Name a));
    destruct (String.compare (fi_Name b) (fi_Name a)); cbn; congruence.
Qed.

Lemma less_precede_trans a b c :
  may_precede less a b -> may_precede less b c ->
  may_precede less a c.
Proof.
  rewrite !less_may_precede. unfold listing_le.
  cbn [to_dirEntry IsDir Name].
  intros [Hab1 Hab2] [Hbc1 Hbc2]. split; [auto|].
  intros Hac.
  destruct (fi_IsDir a) eqn:Ha, (fi_IsDir b) eqn:Hb, (fi_IsDir c) eqn:Hc;
    try discriminate;
    try (specialize (Hab1 eq_refl); discriminate);
    try (specialize (Hbc1 eq_refl); discriminate).
  all: specialize (Hab2 eq_refl); specialize (Hbc2 eq_refl).
  all: apply Is_true_true; apply Is_true_true in Hab2, Hbc2.
  all: change (String.le (fi_Name a) (fi_Name c)).
  all: etransitivity; eassumption.
Qed.

(** Whatever algorithm [sort.Slice] runs, a slice it leaves without
    inversion for [less] is in the order of the listing. *)
Lemma less_sorted_listing_order (l : list FileInfo) :
  StronglySorted (may_precede less) l ->
  StronglySorted listing_le (map to_dirEntry l).
Proof.
  induction 1 as [|x l _ IH Hx]; [constructor|].
  cbn [map]. constructor; [exact IH|].
  rewrite Forall_map. eapply Forall_impl; [exact Hx|].
  intros y Hy. now apply less_may_precede.
Qed.

(** The entries handed to the template are the directory's, sorted. *)
Lemma sorted_entries dirs :
  let entries := map to_dirEntry (sort_Slice less dirs) in
  Permutation (map to_dirEntry dirs) entries
  /\ StronglySorted listing_le entries.
Proof.
  cbv zeta. split.
  - apply Permutation_map, sort_Slice_perm.
  - apply less_sorted_listing_order.
    apply sort_Slice_sorted; [exact less_asym|exact less_precede_trans].
Qed.

(** ** Occurrences of a string in a document *)

Lemma app_empty (s : string) : "" +:+ s = s.
Proof. reflexivity. Qed.

Lemma prefix_empty (s : string) : String.prefix "" s = true.
Proof. now destruct s. Qed.

Lemma prefix_iff (p s : string) :
  String.prefix p s = true <-> exists rest, s = p +:+ rest.
Proof.
  revert s. induction p as [|c p IH]; intros s.
  - rewrite prefix_empty. split; [intros _; now exists s|reflexivity].
  - destruct s as [|x s]; cbn [String.prefix].
    + split; [discriminate|intros [rest Hrest]; discriminate].
    + destruct (ascii_dec c x) as [->|Hne].
      * rewrite IH. split; intros [rest Hrest]; exists rest.
        -- rewrite app_String. now rewrite Hrest.
        -- rewrite app_String in Hrest. congruence.
      * split; [discriminate|intros [rest Hrest]].
        rewrite app_String in Hrest. congruence.
Qed.

Lemma contains_iff (s substr : string) :
  contains s substr = true
  <-> exists before after, s = before +:+ substr +:+ after.
Proof.
  induction s as [|x s IH]; cbn [contains]; rewrite orb_true_iff.
  - split.
    + intros [Hp|]; [|discriminate].
      apply prefix_iff in Hp as [rest Hrest]. now exists "", rest.
    + intros (before & after & Heq). left. apply prefix_iff.
      destruct before; [now exists after|discriminate].
  - rewrite IH, prefix_iff. split.
    + intros [[rest Hrest]|(before & after & Heq)].
      * now exists "", rest.
      * exists (String x before), after. rewrite app_String. now rewrite Heq.
    + intros (before & after & Heq). destruct before as [|y before].
      * left. now exists after.
      * right. exists before, after. rewrite app_String in Heq. congruence.
Qed.

Lemma prefix_app (substr a b : string) :
  String.prefix substr (a +:+ b)
  = match match_through substr a with
    | Some todo => String.prefix todo b
    | None => false
    end.
Proof.
  revert substr. induction a as [|x a IH]; intros substr.
  - reflexivity.
  - destruct substr as [|c more].
    { cbn [match_through]. now rewrite !prefix_empty. }
    rewrite app_String. cbn [String.prefix match_through].
    destruct (ascii_dec c x) as [->|Hne].
    + rewrite Ascii.eqb_refl. apply IH.
    + destruct (Ascii.eqb_spec c x); [contradiction|reflexivity].
Qed.

Lemma contains_app (substr a b : string) :
  contains (a +:+ b) substr
  = existsb (fun todo => String.prefix todo b) (pending substr a)
    || contains b substr.
Proof.
  induction a as [|x a IH].
  - reflexivity.
  - rewrite app_String. cbn [contains pending]. rewrite IH, existsb_app.
    rewrite <- app_String, prefix_app.
    destruct (match_through substr (String x a)) as [todo|];
      cbn [existsb orb]; now rewrite ?orb_false_r, ?orb_assoc.
Qed.

Lemma contains_app_skip (substr a b : string) :
  pending substr a = [] -> contains (a +:+ b) substr = contains b substr.
Proof. intros Hp. now rewrite contains_app, Hp. Qed.

Lemma pending_unmentioned (c : ascii) (more a : string) :
  mentions c a = false -> pending (String c more) a = [].
Proof.
  induction a as [|x a IH]; [reflexivity|].
  cbn [mentions pending match_through]. rewrite orb_false_iff.
  intros [Hx Ha]. rewrite Ascii.eqb_sym, Hx. now apply IH.
Qed.

(** A quoted value is read up to its closing quote. *)
Lemma prefix_quoted (p more x rest : string) :
  mentions (ascii_of_nat 34) p = false ->
  mentions (ascii_of_nat 34) x = false ->
  String.prefix (p +:+ dq +:+ more) (x +:+ dq +:+ rest) = true -> x = p.
Proof.
  revert x. induction p as [|c p IH]; intros x Hp Hx Hpre.
  - destruct x as [|y x]; [reflexivity|].
    cbn [mentions] in Hx. apply orb_false_iff in Hx as [Hy _].
    rewrite app_empty in Hpre. unfold dq in Hpre.
    rewrite !app_String in Hpre. cbn [String.prefix] in Hpre.
    destruct (ascii_dec _ y) as [<-|]; [|discriminate].
    now rewrite Ascii.eqb_refl in Hy.
  - cbn [mentions] in Hp. apply orb_false_iff in Hp as [Hc Hp].
    destruct x as [|y x].
    + rewrite app_empty in Hpre. unfold dq in Hpre at 2.
      rewrite !app_String in Hpre. cbn [String.prefix] in Hpre.
      destruct (ascii_dec c _) as [->|]; [|discriminate].
      now rewrite Ascii.eqb_refl in Hc.
    + cbn [mentions] in Hx. apply orb_false_iff in Hx as [_ Hx].
      rewrite !app_String in Hpre. cbn [String.prefix] in Hpre.
      destruct (ascii_dec c y) as [->|]; [|discriminate].
      f_equal. now apply IH.
Qed.

Lemma mentions_app (c : ascii) (a b : string) :
  mentions c (a +:+ b) = mentions c a || mentions c b.
Proof.
  induction a as [|x a IH]; [reflexivity|].
  rewrite app_String. cbn [mentions]. now rewrite IH, orb_assoc.
Qed.

(** ** The parent link in a rendered listing *)

Section ListingMarkup.
Context `{GoLib}.

Lemma pending_parent_link (a : string) :
  mentions "<" a = false -> pending parent_link a = [].
Proof. exact (pending_unmentioned "<" _ a). Qed.

(** The anchor of an entry's row is the parent link only when its target
    is [../]. *)
Lemma entry_anchor_differs (href suffix rest : string) :
  mentions (ascii_of_nat 34) (href +:+ suffix) = false ->
  href +:+ suffix <> "../" ->
  String.prefix (dq +:+ "../" +:+ dq +:+ ">../</a>")
                (dq +:+ href +:+ suffix +:+ dq +:+ rest) = false.
Proof.
  intros Hquote Hne.
  destruct (String.prefix _ _) eqn:Hpre; [|reflexivity].
  change (String.prefix (String (ascii_of_nat 34)
                           ("../" +:+ dq +:+ ">../</a>"))
                        (String (ascii_of_nat 34)
                           (href +:+ suffix +:+ dq +:+ rest)) = true)
    in Hpre.
  cbn [String.prefix] in Hpre.
  destruct (ascii_dec _ _) as [_|Hq]; [|now elim Hq].
  rewrite <- (app_assoc_string href suffix) in Hpre.
  apply (prefix_quoted "../" ">../</a>") in Hpre;
    [contradiction|reflexivity|exact Hquote].
Qed.

Lemma contains_app_r (substr a b : string) :
  contains b substr = true -> contains (a +:+ b) substr = true.
Proof. intros Hb. rewrite contains_app, Hb. apply orb_true_r. Qed.

Lemma contains_app_l (substr a b : string) :
  contains a substr = true -> contains (a +:+ b) substr = true.
Proof.
  intros Ha. apply contains_iff in Ha as (before & after & ->).
  apply contains_iff. exists before, (after +:+ b).
  now rewrite !app_assoc_string.
Qed.

Ltac skip_piece Htext Hrcdata Hhref :=
  match goal with
  | |- context [contains (?a +:+ ?b) parent_link] =>
      rewrite (contains_app_skip parent_link a b)
        by first [ apply pending_parent_link;
                   first [apply Htext|apply Hrcdata|apply Hhref]
                 | vm_compute; reflexivity ]
  end.

(** A row of an entry whose target is not [../] holds no parent link. *)
Lemma render_entry_skip (e : dirEntry) (rest : string) :
  escapers_keep_markup -> entry_href e <> "../" ->
  contains (render_entry e +:+ rest) parent_link
  = contains rest parent_link.
Proof.
  intros Hesc Hne.
  pose proof (fun s => proj1 (Hesc s)) as Htext.
  pose proof (fun s => proj1 (proj2 (Hesc s))) as Hrcdata.
  pose proof (fun s => proj1 (proj2 (proj2 (Hesc s)))) as Hhref.
  pose proof (fun s => proj2 (proj2 (proj2 (Hesc s)))) as Hquote.
  assert (Hq : mentions (ascii_of_nat 34) (entry_href e) = false).
  { unfold entry_href. rewrite mentions_app, Hquote. now destruct (IsDir e). }
  unfold entry_href in Hne, Hq. unfold render_entry. cbv zeta.
  rewrite !app_assoc_string.
  match goal with
  | |- contains (?a +:+ ?b) parent_link = _ =>
      rewrite (contains_app parent_link a b);
      change (pending parent_link a)
        with [dq +:+ "../" +:+ dq +:+ ">../</a>"]
  end.
  cbn [existsb]. rewrite (entry_anchor_differs _ _ _ Hq Hne).
  cbn [orb].
  destruct (IsDir e); rewrite ?app_assoc_string;
    repeat skip_piece Htext Hrcdata Hhref; reflexivity.
Qed.

Lemma render_entries_skip (files : list dirEntry) (rest : string) :
  escapers_keep_markup ->
  Forall (fun e => entry_href e <> "../") files ->
  contains (concat_strings (map render_row (map FileRow files)) +:+ rest)
           parent_link
  = contains rest parent_link.
Proof.
  intros Hesc Hfiles. induction Hfiles as [|e files He _ IH];
    [reflexivity|].
  cbn [map concat_strings render_row]. rewrite app_assoc_string.
  now rewrite render_entry_skip.
Qed.

(** The listing of [/] holds no parent link, the listing of any other path
    holds one. *)
Lemma parent_link_rendered (path : string) (files : list dirEntry) :
  (path <> "/" ->
   contains (render_dirlist (mkListing path files)) parent_link = true)
  /\ (path = "/" -> escapers_keep_markup ->
      Forall (fun e => entry_href e <> "../") files ->
      contains (render_dirlist (mkListing path files)) parent_link = false).
Proof.
  unfold render_dirlist, parent_rows, file_rows. cbn [Path Files]. split.
  - intros Hsub. destruct (String.eqb_spec path "/") as [|_];
      [contradiction|].
    cbn [map concat_strings render_row].
    do 5 apply contains_app_r. apply contains_app_l.
    vm_compute. reflexivity.
  - intros -> Hesc Hfiles.
    pose proof (fun s => proj1 (Hesc s)) as Htext.
    pose proof (fun s => proj1 (proj2 (Hesc s))) as Hrcdata.
    pose proof (fun s => proj1 (proj2 (proj2 (Hesc s)))) as Hhref.
    change (String.eqb "/" "/") with true. cbn [map concat_strings].
    do 7 skip_piece Htext Hrcdata Hhref.
    rewrite render_entries_skip by assumption.
    vm_compute. reflexivity.
Qed.

End ListingMarkup.

(** ** Redirect to the index file, directory listing *)

Section Directories.
Context `{GoLib} {W : Type} `{HostOps W}.

(** C7 (amended).  For a directory requested with its trailing slash, the
    reply is a 301 whose Location is [path.Join(upath, index)], followed by
    the query when there is one.  Here [upath] is the request path, with a
    slash put in front when it has none, and [index] is the first candidate
    that opens: every candidate before it fails to open, whether it is
    missing or exists and cannot be read.  For a clean rooted directory
    path and a plain file name that join is the concatenation of the two. *)
Theorem index_redirect_first_match (h : StatiqHandler) (world : W)
    (w : ResponseWriter) (r : Request) (f : File) (d : FileInfo)
    (before : list string) (index : string) (after : list string) :
  rw_wroteHeader w = false ->
  Dir_Open world (root h) (clean_upath r) = inr f ->
  f_Stat f = inr d -> fi_IsDir d = true ->
  ends_with_slash (URL_Path r) = true ->
  indexFiles h = before ++ index :: after ->
  (forall i, In i before ->
     exists e, Dir_Open world (root h) (path_Join (clean_upath r) i) = inl e) ->
  (exists fi,
     Dir_Open world (root h) (path_Join (clean_upath r) index) = inr fi) ->
  let target := path_Join (clean_upath r) index in
  status_of (Statiq.ServeHTTP h world w r) = Some StatusMovedPermanently
  /\ sent_header "Location" (Statiq.ServeHTTP h world w r)
     = Some (if nonempty (URL_RawQuery r)
             then target +:+ "?" +:+ URL_RawQuery r else target)
  /\ (forall segs,
        URL_Path r = dir_path segs ->
        Forall (fun s => plain_name s = true) segs ->
        plain_name index = true ->
        target = URL_Path r +:+ index)
  /\ (HasPrefix (URL_Path r) "/" = true ->
      target = path_Join (URL_Path r) index).
Proof.
  intros Hw Hopen Hstat Hdir Hslash Hindexes Hbefore Hindex target.
  assert (Hserve : Statiq.ServeHTTP h world w r
                   = Returned (localRedirect w r target)).
  { unfold Statiq.ServeHTTP. rewrite Hopen, Hstat, Hdir.
    rewrite needs_slash_spec, Hslash. cbn [negb]. rewrite Hindexes.
    now rewrite (find_index_first h world _ before index after Hbefore Hindex). }
  rewrite Hserve. cbn [status_of sent_header]. unfold localRedirect.
  match goal with
  | |- context [WriteHeader ?c (Header_Set ?k ?v w)] =>
      destruct (WriteHeader_fresh c (Header_Set k v w) Hw)
        as (-> & _ & -> & _)
  end.
  split; [reflexivity|split; [|split]].
  - unfold Header_Set. cbn [rw_header]. apply lookup_insert_eq.
  - intros segs Hpath Hsegs Hplain. subst target.
    unfold clean_upath. rewrite Hpath, HasPrefix_dir_path.
    now apply path_Join_clean_dir.
  - intros Hrooted. subst target. unfold clean_upath. now rewrite Hrooted.
Qed.


End Directories.

(** * The handlers on a concrete site

    Every request below runs against [Mem.site], rooted at [/srv]. *)

(** C5.  The first handler returns on every request: its trailing-slash
    test is never out of range.  The second one has no guard: it panics
    exactly when the request path is empty and the root opens as a
    directory, where the index [len(url)-1] is [-1]. *)
Theorem empty_path_index_out_of_range :
  (forall (G : GoLib) (W : Type) (O : HostOps W) h (world : W) w r,
      exists w', Statiq.ServeHTTP h world w r = Returned w')
  /\ (forall (G : GoLib) (W : Type) (O : HostOps W) h (world : W) w r,
        (exists msg, StatiqB.ServeHTTP h world w r = Panicked msg)
        <-> URL_Path r = ""
            /\ exists f d, Dir_Open world (root h) "/" = inr f
                           /\ f_Stat f = inr d /\ fi_IsDir d = true)
  /\ needs_slash "" = Some true
  /\ last_is_not_slash "" = None
  /\ status_of (Statiq.ServeHTTP Mem.h_plain Mem.site fresh_writer
                  (Mem.get "" ""))
     = Some StatusMovedPermanently
  /\ StatiqB.ServeHTTP Mem.h_plain Mem.site fresh_writer (Mem.get "" "")
     = Panicked "index out of range".
Proof.
  split; [|split; [|repeat split; vm_compute; reflexivity]].
  - intros G W O h world w r. apply ServeHTTP_returns.
  - intros G W O h world w r. apply ServeHTTP_B_panics.
Qed.

(** C1 as stated fails: opening [/loop] fails on a symbolic link cycle, an
    error that is neither not-exist nor permission denied, and both
    handlers reply 403, not 500.  And a path that does not exist is
    answered 500 when [spaMode] is on and the SPA index is not there. *)
Lemma other_open_failure_is_forbidden :
  Dir_Open Mem.site (root Mem.h_plain) (clean_upath (Mem.get "/loop" ""))
  = inl (ErrOther "too many levels of symbolic links")
  /\ status_of (Statiq.ServeHTTP Mem.h_plain Mem.site fresh_writer
                  (Mem.get "/loop" ""))
     = Some StatusForbidden
  /\ status_of (StatiqB.ServeHTTP Mem.h_plain Mem.site fresh_writer
                  (Mem.get "/loop" ""))
     = Some StatusForbidden
  /\ Some StatusForbidden <> Some StatusInternalServerError
  /\ Dir_Open Mem.site_without_index (root Mem.h_spa)
       (clean_upath (Mem.get "/missing.txt" ""))
     = inl ErrNotExist
  /\ status_of (Statiq.ServeHTTP Mem.h_spa Mem.site_without_index
                  fresh_writer (Mem.get "/missing.txt" ""))
     = Some StatusInternalServerError.
Proof.
  split; [vm_compute; reflexivity|].
  split; [vm_compute; reflexivity|].
  split; [vm_compute; reflexivity|].
  split; [discriminate|].
  split; vm_compute; reflexivity.
Qed.

Lemma open_and_stat_failures_witness :
  (status_of (Statiq.ServeHTTP Mem.h_page Mem.site fresh_writer
                (Mem.get "/secret" ""))
   = Some StatusForbidden
   /\ status_of (StatiqB.ServeHTTP Mem.h_page Mem.site fresh_writer
                   (Mem.get "/secret" ""))
      = Some StatusForbidden)
  /\ (status_of (Statiq.ServeHTTP Mem.h_page Mem.site fresh_writer
                   (Mem.get "/stale" ""))
      = Some StatusInternalServerError
      /\ status_of (StatiqB.ServeHTTP Mem.h_page Mem.site fresh_writer
                      (Mem.get "/stale" ""))
         = Some StatusInternalServerError)
  /\ Statiq.ServeHTTP Mem.h_page Mem.site fresh_writer
       (Mem.get "/missing.txt" "")
     = Returned (Statiq.rule3 Mem.h_page Mem.site fresh_writer
                   (Mem.get "/missing.txt" "")).
Proof.
  split; [|split].
  - refine (proj1 (open_and_stat_failures Mem.h_page Mem.site fresh_writer
                     (Mem.get "/secret" "") _ _) ErrPermission _ _);
      vm_compute; reflexivity.
  - refine (proj1 (proj2 (open_and_stat_failures Mem.h_page Mem.site
                            fresh_writer (Mem.get "/stale" "") _ _))
                  _ (ErrOther "stale file handle") _ _);
      vm_compute; reflexivity.
  - refine (proj1 (proj2 (proj2 (open_and_stat_failures Mem.h_page Mem.site
                                   fresh_writer (Mem.get "/missing.txt" "")
                                   _ _))
                         ErrNotExist _ _));
      vm_compute; reflexivity.
Defined.



Lemma spa_fallback_reply_witness :
  status_of (Statiq.ServeHTTP Mem.h_spa_page Mem.site fresh_writer
               (Mem.get "/any/deep/path.png" "x=1"))
  = Some StatusOK
  /\ body_of (Statiq.ServeHTTP Mem.h_spa_page Mem.site fresh_writer
                (Mem.get "/any/deep/path.png" "x=1"))
     = Some "<html>app</html>".
Proof.
  eapply (spa_fallback_reply Mem.h_spa_page Mem.site fresh_writer
            (Mem.get "/any/deep/path.png" "x=1") ErrNotExist).
  - split; reflexivity.
  - reflexivity.
  - vm_compute; reflexivity.
  - reflexivity.
  - cbv; reflexivity.
  - cbv; reflexivity.
  - cbv; reflexivity.
Defined.

Lemma error_page_reply_witness :
  notFoundResponseCode Mem.h_page = StatusOK
  /\ status_of (Statiq.ServeHTTP Mem.h_page Mem.site fresh_writer
                  (Mem.get "/non-existent.txt" ""))
     = Some StatusOK
  /\ body_of (Statiq.ServeHTTP Mem.h_page Mem.site fresh_writer
                (Mem.get "/non-existent.txt" ""))
     = Some "<html>custom 404</html>".
Proof.
  eapply (error_page_reply Mem.site Mem.site (Mem.config false "404.html" false)
            Mem.h_page Mem.site fresh_writer
            (Mem.get "/non-existent.txt" "") ErrNotExist).
  - vm_compute; reflexivity.
  - reflexivity.
  - reflexivity.
  - split; reflexivity.
  - vm_compute; reflexivity.
  - reflexivity.
  - cbv; reflexivity.
  - cbv; reflexivity.
  - cbv; reflexivity.
Defined.

Lemma directory_slash_redirect_witness :
  status_of (Statiq.ServeHTTP Mem.h_plain Mem.site fresh_writer
               (Mem.get "/sub" "x=1&y"))
  = Some StatusMovedPermanently
  /\ sent_header "Location" (Statiq.ServeHTTP Mem.h_plain Mem.site
                               fresh_writer (Mem.get "/sub" "x=1&y"))
     = Some "/sub/?x=1&y".
Proof.
  eapply (directory_slash_redirect Mem.h_plain Mem.site fresh_writer
            (Mem.get "/sub" "x=1&y")).
  - reflexivity.
  - cbv; reflexivity.
  - cbv; reflexivity.
  - reflexivity.
  - reflexivity.
Defined.

(** C7 as stated fails in two ways.  The Location is a cleaned join: for
    the request paths [/sub//] and [sub/] it is [/sub/index.htm], not the
    request path followed by the file name.  And the candidate chosen is
    the first that opens, not the first that exists: where
    [/srv/sub/index.html] exists without read permission, the request for
    [/sub/] is sent to the later candidate [index.htm]. *)
Lemma index_redirect_cleaned_first_opened :
  (sent_header "Location" (Statiq.ServeHTTP Mem.h_plain Mem.site fresh_writer
                             (Mem.get "/sub//" ""))
   = Some "/sub/index.htm"
   /\ "/sub/index.htm" <> "/sub//" +:+ "index.htm"
   /\ Dir_Open Mem.site (root Mem.h_plain) (path_Join "/sub//" "index.html")
      = inl ErrNotExist
   /\ (exists f,
         Dir_Open Mem.site (root Mem.h_plain) (path_Join "/sub//" "index.htm")
         = inr f))
  /\ (sent_header "Location" (Statiq.ServeHTTP Mem.h_plain Mem.site
                                fresh_writer (Mem.get "sub/" ""))
      = Some "/sub/index.htm"
      /\ "/sub/index.htm" <> "sub/" +:+ "index.htm")
  /\ (indexFiles Mem.h_plain = ["index.html"; "index.htm"; "home.html"]
      /\ (exists d,
            os_Stat Mem.site_locked_index "/srv/sub/index.html" = inr d
            /\ fi_IsDir d = false)
      /\ Dir_Open Mem.site_locked_index (root Mem.h_plain) "/sub/index.html"
         = inl ErrPermission
      /\ status_of (Statiq.ServeHTTP Mem.h_plain Mem.site_locked_index
                      fresh_writer (Mem.get "/sub/" ""))
         = Some StatusMovedPermanently
      /\ sent_header "Location"
           (Statiq.ServeHTTP Mem.h_plain Mem.site_locked_index fresh_writer
              (Mem.get "/sub/" ""))
         = Some "/sub/index.htm"
      /\ "/sub/index.htm" <> "/sub/" +:+ "index.html").
Proof.
  split; [|split].
  - split; [vm_compute; reflexivity|].
    split; [discriminate|].
    split; [vm_compute; reflexivity|].
    eexists. cbv. reflexivity.
  - split; [vm_compute; reflexivity|discriminate].
  - split; [reflexivity|].
    split; [eexists; split; vm_compute; reflexivity|].
    split; [vm_compute; reflexivity|].
    split; [vm_compute; reflexivity|].
    split; [vm_compute; reflexivity|discriminate].
Qed.

Lemma index_redirect_first_match_witness :
  status_of (Statiq.ServeHTTP Mem.h_plain Mem.site_locked_index fresh_writer
               (Mem.get "/sub/" "x=1"))
  = Some StatusMovedPermanently
  /\ sent_header "Location"
       (Statiq.ServeHTTP Mem.h_plain Mem.site_locked_index fresh_writer
          (Mem.get "/sub/" "x=1"))
     = Some "/sub/index.htm?x=1"
  /\ path_Join "/sub/" "index.htm" = "/sub/" +:+ "index.htm".
Proof.
  destruct (index_redirect_first_match Mem.h_plain Mem.site_locked_index
              fresh_writer (Mem.get "/sub/" "x=1")
              (mkFile (inr (Mem.info "/srv/sub" (Mem.Folder Mem.t0)))
                      (inr (Mem.children Mem.site_locked_index "/srv/sub"))
                      (inl (ErrOther "is a directory")))
              (Mem.info "/srv/sub" (Mem.Folder Mem.t0))
              ["index.html"] "index.htm" ["home.html"])
    as (Hstatus & Hlocation & Hconcat & _).
  - reflexivity.
  - vm_compute; reflexivity.
  - reflexivity.
  - reflexivity.
  - reflexivity.
  - reflexivity.
  - intros i [<-|[]]. exists ErrPermission. vm_compute. reflexivity.
  - eexists. cbv. reflexivity.
  - split; [exact Hstatus|split; [exact Hlocation|]].
    apply (Hconcat ["sub"]).
    + reflexivity.
    + repeat constructor.
    + reflexivity.
Defined.

Lemma cache_headers_by_precedence_witness :
  (sent_header "Cache-Control"
     (Statiq.ServeHTTP Mem.h_plain Mem.site fresh_writer
        (Mem.get "/style.css" ""))
   = Some "max-age=3600"
   /\ sent_header "Last-Modified"
        (Statiq.ServeHTTP Mem.h_plain Mem.site fresh_writer
           (Mem.get "/style.css" ""))
      = Some "Tue, 14 Nov 2023 22:13:20 GMT")
  /\ sent_header "Cache-Control"
       (Statiq.ServeHTTP Mem.h_plain Mem.site fresh_writer
          (Mem.get "/notes" ""))
     = Some "max-age=600"
  /\ rw_header (setCacheHeaders (make_handler "/srv" CreateConfig 404)
                  fresh_writer (Mem.get "/notes" "")
                  (Mem.info "/srv/notes" (Mem.Regular "plain notes" Mem.t0)))
     !! "Cache-Control"
     = Some "max-age=86400".
Proof.
  split; [|split; vm_compute; reflexivity].
  refine (proj2 (proj2 (proj2
            (cache_headers_by_precedence Mem.h_plain Mem.site fresh_writer
               (Mem.get "/style.css" "")
               (Mem.info "/srv/style.css" (Mem.Regular "body {}" Mem.t0)))))
            (mkFile (inr (Mem.info "/srv/style.css"
                            (Mem.Regular "body {}" Mem.t0)))
                    (inl (ErrOther "not a directory")) (inr "body {}"))
            "body {}" _ _ _ _ _);
    vm_compute; reflexivity.
Defined.

(** The escapers of the in-memory host write no markup. *)
Lemma escape_keeps_markup (s : string) :
  mentions "<" (Mem.escape s) = false
  /\ mentions (ascii_of_nat 34) (Mem.escape s) = false.
Proof.
  induction s as [|c s [IHlt IHquote]]; [split; reflexivity|].
  cbn [Mem.escape]. rewrite !mentions_app, IHlt, IHquote, !orb_false_r.
  destruct (Ascii.eqb_spec c "&"); [split; reflexivity|].
  destruct (Ascii.eqb_spec c "<"); [split; reflexivity|].
  destruct (Ascii.eqb_spec c ">"); [split; reflexivity|].
  destruct (Ascii.eqb_spec c (ascii_of_nat 34)); [split; reflexivity|].
  destruct (Ascii.eqb_spec c (ascii_of_nat 39)); [split; reflexivity|].
  cbn [mentions]. rewrite !orb_false_r.
  split; now apply Ascii.eqb_neq.
Qed.

Lemma Mem_escapers_keep_markup : escapers_keep_markup.
Proof.
  intros s. cbn [tmpl_text tmpl_rcdata tmpl_href Mem.golib].
  destruct (escape_keeps_markup s) as [Hlt Hquote]. auto.
Qed.


(** The listing of the root has no parent row. *)
Example root_listing_has_no_parent_row :
  template_rows (mkListing "/" []) = []
  /\ template_rows (mkListing "/docs/" []) = [ParentRow].
Proof. split; reflexivity. Qed.

Lemma error_page_status_committed_witness :
  status_of (Statiq.ServeHTTP Mem.h_page Mem.site_without_page fresh_writer
               (Mem.get "/non-existent.txt" ""))
  = Some StatusOK
  /\ body_of (Statiq.ServeHTTP Mem.h_page Mem.site_without_page fresh_writer
                (Mem.get "/non-existent.txt" ""))
     = Some ("Internal Server Error" +:+ newline).
Proof.
  eapply (error_page_status_committed Mem.site Mem.site
            (Mem.config false "404.html" false) Mem.h_page
            Mem.site_without_page fresh_writer
            (Mem.get "/non-existent.txt" "") ErrNotExist).
  - vm_compute; reflexivity.
  - reflexivity.
  - reflexivity.
  - split; reflexivity.
  - vm_compute; reflexivity.
  - reflexivity.
  - left. eexists. vm_compute. reflexivity.
Defined.

(** The custom page itself goes out without cache headers: they are put
    into the header map after the status is out. *)
Example error_page_sends_no_cache_headers :
  sent_header "Cache-Control"
    (Statiq.ServeHTTP Mem.h_page Mem.site fresh_writer
       (Mem.get "/non-existent.txt" ""))
  = None
  /\ sent_header "Last-Modified"
       (Statiq.ServeHTTP Mem.h_page Mem.site fresh_writer
          (Mem.get "/non-existent.txt" ""))
     = None.
Proof. split; vm_compute; reflexivity. Qed.

(** The scenarios of the specification. *)
Example scenario_file_round_trip :
  status_of (Statiq.ServeHTTP Mem.h_plain Mem.site fresh_writer
               (Mem.get "/index.html" ""))
  = Some StatusOK
  /\ body_of (Statiq.ServeHTTP Mem.h_plain Mem.site fresh_writer
                (Mem.get "/index.html" ""))
     = Some "<html>app</html>"
  /\ sent_header "Content-Type"
       (Statiq.ServeHTTP Mem.h_plain Mem.site fresh_writer
          (Mem.get "/index.html" ""))
     = Some "text/html; charset=utf-8".
Proof. repeat split; vm_compute; reflexivity. Qed.

Example scenario_listing_disabled :
  status_of (Statiq.ServeHTTP Mem.h_plain Mem.site fresh_writer
               (Mem.get "/docs/" ""))
  = Some StatusNotFound.
Proof. vm_compute; reflexivity. Qed.

(** * Further properties of the handlers *)

(** ** The two handlers side by side *)

Lemma Header_Set_commute k1 v1 k2 v2 w :
  k1 <> k2 ->
  Header_Set k1 v1 (Header_Set k2 v2 w) = Header_Set k2 v2 (Header_Set k1 v1 w).
Proof.
  intros Hk. unfold Header_Set. cbn [rw_header rw_wroteHeader rw_status
                                      rw_sent rw_body].
  f_equal. now apply insert_insert_ne.
Qed.

Lemma Header_Set_override k v1 v2 w :
  Header_Set k v2 (Header_Set k v1 w) = Header_Set k v2 w.
Proof.
  unfold Header_Set. cbn [rw_header rw_wroteHeader rw_status rw_sent rw_body].
  f_equal. apply insert_insert_eq.
Qed.

Lemma lookup_Header_Set_eq k v w : rw_header (Header_Set k v w) !! k = Some v.
Proof. unfold Header_Set. cbn [rw_header]. apply lookup_insert_eq. Qed.

Lemma lookup_Header_Set_ne k v w k' :
  k <> k' -> rw_header (Header_Set k v w) !! k' = rw_header w !! k'.
Proof.
  intros Hk. unfold Header_Set. cbn [rw_header]. now apply lookup_insert_ne.
Qed.

Section Agreement.
Context `{GoLib} {W : Type} `{HostOps W}.

(** [http.Error] overwrites the content type: one set before is lost. *)
Lemma http_Error_preset_type w ct msg code :
  http_Error (Header_Set "Content-Type" ct w) msg code = http_Error w msg code.
Proof.
  unfold http_Error. cbv zeta. f_equal. f_equal.
  unfold Header_Set, Header_Del.
  cbn [rw_header rw_wroteHeader rw_status rw_sent rw_body].
  f_equal. f_equal.
  rewrite delete_insert_ne by done. apply insert_insert_eq.
Qed.

(** Setting the extension's MIME type before [http.ServeContent], as the
    first handler does, changes nothing when no content type was set: the
    primitive picks the same type. *)
Lemma ServeContent_preset_type w r name modtime f :
  rw_header w !! "Content-Type" = None ->
  http_ServeContent
    (if nonempty (mime_TypeByExtension (filepath_Ext name))
     then Header_Set "Content-Type"
            (mime_TypeByExtension (filepath_Ext name)) w
     else w) r name modtime f
  = http_ServeContent w r name modtime f.
Proof.
  intros Hnone. unfold nonempty.
  destruct (String.eqb (mime_TypeByExtension (filepath_Ext name)) "")
    eqn:Hct; cbn [negb]; [reflexivity|].
  unfold http_ServeContent. cbv zeta.
  destruct (f_data f) as [e|data].
  - destruct (isZeroTime modtime).
    + apply http_Error_preset_type.
    + rewrite Header_Set_commute by done. apply http_Error_preset_type.
  - rewrite Hct.
    destruct (isZeroTime modtime).
    + rewrite lookup_Header_Set_eq, Hnone. reflexivity.
    + rewrite !(lookup_Header_Set_ne "Last-Modified") by done.
      rewrite lookup_Header_Set_eq, Hnone.
      now rewrite (Header_Set_commute "Content-Type") by done.
Qed.

Lemma setCacheHeaders_other_key h w r d k :
  k <> "Cache-Control" -> k <> "Last-Modified" ->
  rw_header (setCacheHeaders h w r d) !! k = rw_header w !! k.
Proof.
  intros Hcc Hlm. unfold setCacheHeaders, Header_Set. cbn [rw_header].
  rewrite lookup_insert_ne by congruence.
  destruct (cacheControl h !! filepath_Ext (fi_Name d));
    [|destruct (cacheControl h !! "*")]; cbn [rw_header];
    now rewrite lookup_insert_ne by congruence.
Qed.

(** The two [serveFile] give the same reply on a writer that has no
    content type yet. *)
Lemma serveFile_agree h (world : W) w r filePath :
  rw_header w !! "Content-Type" = None ->
  Statiq.serveFile h world w r filePath
  = StatiqB.serveFile h world w r filePath.
Proof.
  intros Hnone. unfold Statiq.serveFile, StatiqB.serveFile.
  destruct (os_Open world filePath) as [e|f]; [reflexivity|].
  destruct (f_Stat f) as [e|d]; [reflexivity|]. cbv zeta.
  apply ServeContent_preset_type.
  now rewrite setCacheHeaders_other_key by done.
Qed.

Lemma find_index_agree h (world : W) upath indexes :
  StatiqB.find_index h world upath indexes
  = Statiq.find_index h world upath indexes.
Proof.
  induction indexes as [|index rest IH]; [reflexivity|].
  cbn [Statiq.find_index StatiqB.find_index]. unfold filepath_Join.
  now rewrite IH.
Qed.

(** X1.  On a Unix host the two handlers give the same reply to every
    request with a non-empty path, when listing is disabled, the handler's
    two root fields are the same directory (as [New] sets them) and the
    writer carries no content type yet. *)
Theorem handlers_agree (h : StatiqHandler) (world : W) (w : ResponseWriter)
    (r : Request) :
  root h = rootPath h -> URL_Path r <> "" -> enableDirListing h = false ->
  rw_header w !! "Content-Type" = None ->
  StatiqB.ServeHTTP h world w r = Statiq.ServeHTTP h world w r.
Proof.
  intros Hroot Hpath Hlisting Hnone.
  unfold Statiq.ServeHTTP, StatiqB.ServeHTTP.
  rewrite find_index_agree, needs_slash_spec, last_is_not_slash_spec.
  rewrite Hroot, Hlisting.
  assert (Hcommitted : forall code,
             rw_header (WriteHeader code w) !! "Content-Type" = None).
  { intros code. unfold WriteHeader. now destruct (rw_wroteHeader w). }
  destruct (Dir_Open world (rootPath h) (clean_upath r)) as [e|f].
  - destruct (os_IsNotExist e); [|reflexivity].
    destruct (spaMode h); [now rewrite serveFile_agree|].
    destruct (nonempty (errorPage404 h)); [|reflexivity].
    cbv zeta. now rewrite serveFile_agree.
  - destruct (f_Stat f) as [e|d]; [reflexivity|].
    destruct (fi_IsDir d).
    + destruct (URL_Path r) as [|c s]; [contradiction|].
      destruct (negb (ends_with_slash (String c s))); [reflexivity|].
      destruct (Statiq.find_index _ _ _ _); [reflexivity|].
      cbn [negb]. destruct (nonempty (errorPage404 h)); [|reflexivity].
      cbv zeta. now rewrite serveFile_agree.
    + cbv zeta. f_equal. symmetry. apply ServeContent_preset_type.
      now rewrite setCacheHeaders_other_key by done.
Qed.

End Agreement.

(** ** Which status a request gets *)

Section StatusTable.
Context `{GoLib} {W : Type} `{HostOps W}.

(** The index loop finds something exactly when some candidate opens. *)
Lemma find_index_none_iff h (world : W) upath indexes :
  Statiq.find_index h world upath indexes = None
  <-> forall index, In index indexes ->
        exists e, Dir_Open world (root h) (path_Join upath index) = inl e.
Proof.
  split; [|apply find_index_none].
  induction indexes as [|index rest IH]; [intros _ ? []|].
  cbn [Statiq.find_index].
  destruct (Dir_Open world (root h) (path_Join upath index)) as [e|fi] eqn:Ho;
    [|discriminate].
  intros Hrest i [<-|Hi]; [eauto|]. now apply IH.
Qed.

Lemma find_index_some_iff h (world : W) upath indexes :
  (exists p, Statiq.find_index h world upath indexes = Some p)
  <-> exists index,
        In index indexes
        /\ exists fi,
             Dir_Open world (root h) (path_Join upath index) = inr fi.
Proof.
  destruct (Statiq.find_index h world upath indexes) as [p|] eqn:Hfind.
  - split; [intros _|eauto].
    induction indexes as [|index rest IH]; [discriminate|].
    cbn [Statiq.find_index] in Hfind.
    destruct (Dir_Open world (root h) (path_Join upath index)) as [e|fi] eqn:Ho.
    + destruct (IH Hfind) as (i & Hi & Hopen). exists i. split; [now right|].
      exact Hopen.
    + exists index. split; [now left|eauto].
  - split; [intros [? ?]; discriminate|].
    intros (index & Hin & fi & Hopen).
    destruct (proj1 (find_index_none_iff h world upath indexes) Hfind
                    index Hin) as [e He].
    congruence.
Qed.

(** The listing renderer replies 200, or 500 when the directory cannot be
    read. *)
Lemma serveDirectoryListing_status h w r f d :
  rw_wroteHeader w = false ->
  rw_status (Statiq.serveDirectoryListing h w r f d)
  = match f_Readdir f with
    | inl _ => StatusInternalServerError
    | inr _ => StatusOK
    end.
Proof.
  intros Hw. unfold Statiq.serveDirectoryListing.
  destruct (f_Readdir f) as [e|dirs]; [now apply http_Error_fresh|].
  cbv zeta. unfold Write, WriteHeader, Header_Set.
  cbn [rw_wroteHeader rw_status]. now rewrite Hw.
Qed.

(** The status of every branch of the dispatcher. *)
Lemma ServeHTTP_status_table h (world : W) w r :
  handler_ok h -> rw_wroteHeader w = false ->
  exists w',
    Statiq.ServeHTTP h world w r = Returned w'
    /\ match Dir_Open world (root h) (clean_upath r) with
       | inl e =>
           if os_IsNotExist e then
             if spaMode h then
               rw_status w' = StatusOK
               \/ rw_status w' = StatusInternalServerError
             else if nonempty (errorPage404 h) then rw_status w' = StatusOK
             else rw_status w' = StatusNotFound
           else rw_status w' = StatusForbidden
       | inr f =>
           match f_Stat f with
           | inl _ => rw_status w' = StatusInternalServerError
           | inr d =>
               if fi_IsDir d then
                 if ends_with_slash (URL_Path r) then
                   match Statiq.find_index h world (clean_upath r)
                           (indexFiles h) with
                   | Some _ => rw_status w' = StatusMovedPermanently
                   | None =>
                       if enableDirListing h then
                         rw_status w' = StatusOK
                         \/ rw_status w' = StatusInternalServerError
                       else if nonempty (errorPage404 h)
                            then rw_status w' = StatusOK
                            else rw_status w' = StatusNotFound
                   end
                 else rw_status w' = StatusMovedPermanently
               else rw_status w' = StatusOK
                    \/ rw_status w' = StatusInternalServerError
           end
       end.
Proof.
  intros Hok Hw. unfold Statiq.ServeHTTP. unfold handler_ok in Hok.
  assert (Hredirect : forall p,
             rw_status (localRedirect w r p) = StatusMovedPermanently).
  { intros p. unfold localRedirect. now apply WriteHeader_fresh. }
  assert (Hpage : nonempty (errorPage404 h) = true ->
             rw_status (Statiq.serveFile h world
                          (WriteHeader (notFoundResponseCode h) w) r
                          (filepath_Join (rootPath h) (errorPage404 h)))
             = StatusOK).
  { intros Hp. rewrite Hp in Hok. rewrite Hok.
    destruct (WriteHeader_fresh StatusOK w Hw) as (Hst & Hwrote & _).
    destruct (serveFile_keeps_status h world (WriteHeader StatusOK w) r
                (filepath_Join (rootPath h) (errorPage404 h)) Hwrote)
      as [-> _].
    exact Hst. }
  assert (Hplain : rw_status (http_NotFound w r) = StatusNotFound).
  { unfold http_NotFound. now apply http_Error_fresh. }
  destruct (Dir_Open world (root h) (clean_upath r)) as [e|f].
  - destruct (os_IsNotExist e).
    + destruct (spaMode h).
      * eexists; split; [reflexivity|].
        destruct (serveFile_status h world w r
                    (filepath_Join (rootPath h) (spaIndex h)) Hw)
          as [(_ & -> & _)|(_ & -> & _)]; auto.
      * destruct (nonempty (errorPage404 h)) eqn:Hp.
        -- eexists; split; [reflexivity|]. now apply Hpage.
        -- eexists; split; [reflexivity|]. exact Hplain.
    + eexists; split; [reflexivity|]. now apply http_Error_fresh.
  - destruct (f_Stat f) as [e|d].
    { eexists; split; [reflexivity|]. now apply http_Error_fresh. }
    destruct (fi_IsDir d).
    + rewrite needs_slash_spec.
      destruct (ends_with_slash (URL_Path r)); cbn [negb];
        [|eexists; split; [reflexivity|apply Hredirect]].
      destruct (Statiq.find_index h world (clean_upath r) (indexFiles h));
        [eexists; split; [reflexivity|apply Hredirect]|].
      destruct (enableDirListing h); cbn [negb].
      * eexists; split; [reflexivity|].
        rewrite serveDirectoryListing_status by exact Hw.
        destruct (f_Readdir f); auto.
      * destruct (nonempty (errorPage404 h)) eqn:Hp.
        -- eexists; split; [reflexivity|]. now apply Hpage.
        -- eexists; split; [reflexivity|]. exact Hplain.
    + cbv zeta. eexists; split; [reflexivity|].
      destruct (setCacheHeaders_state h w r d) as (Hwrote & _).
      rewrite Hw in Hwrote.
      match goal with
      | |- context [http_ServeContent ?w1 r ?n ?t f] =>
          assert (Hw1 : rw_wroteHeader w1 = false)
            by (destruct (nonempty (mime_TypeByExtension _)); exact Hwrote);
          destruct (f_data f) as [e|data] eqn:Hdata;
          [right; eapply ServeContent_unreadable; eassumption
          |left; eapply ServeContent_fresh; eassumption]
      end.
Qed.

End StatusTable.

Ltac table_cases Htable :=
  repeat match type of Htable with
         | match ?x with _ => _ end => destruct x eqn:?
         end.

Ltac unfold_status :=
  unfold StatusOK, StatusMovedPermanently, StatusForbidden, StatusNotFound,
    StatusInternalServerError in *.

Section StatusClasses.
Context `{GoLib} {W : Type} `{HostOps W}.

(** X2.  The first handler answers every request with one of the five
    statuses 200, 301, 403, 404, 500. *)
Theorem status_is_one_of_five (h : StatiqHandler) (world : W)
    (w : ResponseWriter) (r : Request) :
  handler_ok h -> rw_wroteHeader w = false ->
  exists code,
    status_of (Statiq.ServeHTTP h world w r) = Some code
    /\ In code [StatusOK; StatusMovedPermanently; StatusForbidden;
                StatusNotFound; StatusInternalServerError].
Proof.
  intros Hok Hw.
  destruct (ServeHTTP_status_table h world w r Hok Hw)
    as (w' & -> & Htable).
  exists (rw_status w'). split; [reflexivity|].
  table_cases Htable; try destruct Htable as [Htable|Htable];
    rewrite Htable; cbn; auto 6.
Qed.

(** X3.  The reply is 403 exactly when opening the request path fails with
    an error other than not-exist; its body is then the fixed text, not the
    error. *)
Theorem forbidden_iff_open_error (h : StatiqHandler) (world : W)
    (w : ResponseWriter) (r : Request) :
  handler_ok h -> rw_wroteHeader w = false ->
  (status_of (Statiq.ServeHTTP h world w r) = Some StatusForbidden
   <-> exists e, Dir_Open world (root h) (clean_upath r) = inl e
                 /\ os_IsNotExist e = false)
  /\ (status_of (Statiq.ServeHTTP h world w r) = Some StatusForbidden ->
      body_of (Statiq.ServeHTTP h world w r)
      = Some (rw_body w +:+ "Forbidden" +:+ newline)).
Proof.
  intros Hok Hw.
  assert (Hiff : status_of (Statiq.ServeHTTP h world w r)
                 = Some StatusForbidden
                 <-> exists e, Dir_Open world (root h) (clean_upath r) = inl e
                               /\ os_IsNotExist e = false).
  { destruct (ServeHTTP_status_table h world w r Hok Hw)
      as (w' & -> & Htable).
    cbn [status_of].
    table_cases Htable; try destruct Htable as [Htable|Htable];
      rewrite Htable; unfold_status;
      (split; [intros Hs; try discriminate; eauto
              |intros (e' & He' & Hne); try congruence]). }
  split; [exact Hiff|].
  intros Hs. apply Hiff in Hs as (e & Hopen & Hother).
  unfold Statiq.ServeHTTP. rewrite Hopen, Hother. cbn [body_of].
  f_equal. now apply http_Error_fresh.
Qed.

(** X4.  The reply is a plain 404 exactly when no error page is configured
    and either the path does not exist and [spaMode] is off, or the path
    is a directory requested with its slash, no index candidate opens and
    listing is disabled. *)
Theorem not_found_iff (h : StatiqHandler) (world : W) (w : ResponseWriter)
    (r : Request) :
  handler_ok h -> rw_wroteHeader w = false ->
  status_of (Statiq.ServeHTTP h world w r) = Some StatusNotFound
  <-> errorPage404 h = ""
      /\ ((exists e, Dir_Open world (root h) (clean_upath r) = inl e
                     /\ os_IsNotExist e = true /\ spaMode h = false)
          \/ (exists f d,
                Dir_Open world (root h) (clean_upath r) = inr f
                /\ f_Stat f = inr d /\ fi_IsDir d = true
                /\ ends_with_slash (URL_Path r) = true
                /\ (forall index, In index (indexFiles h) ->
                      exists e,
                        Dir_Open world (root h)
                          (path_Join (clean_upath r) index) = inl e)
                /\ enableDirListing h = false)).
Proof.
  intros Hok Hw.
  destruct (ServeHTTP_status_table h world w r Hok Hw)
    as (w' & -> & Htable).
  cbn [status_of].
  assert (Hpage : nonempty (errorPage404 h) = false <-> errorPage404 h = "").
  { unfold nonempty. rewrite negb_false_iff. apply String.eqb_eq. }
  table_cases Htable; try destruct Htable as [Htable|Htable];
    rewrite Htable; unfold_status.
  all: split;
    [intros Hs; try discriminate
    |intros (Hp & [(e' & He' & Hm & Hspa)
                  |(f' & d' & Hf & Hd & Hdir & Hsl & Hnone & Hl)]);
     apply Hpage in Hp; try congruence].
  all: try (split; [now apply Hpage|]).
  all: try (left; eexists; repeat split; eauto; fail).
  all: try (right; do 2 eexists; repeat split; eauto;
            now apply find_index_none_iff).
  all: pose proof (proj2 (find_index_none_iff h world _ _) Hnone);
    congruence.
Qed.

(** X5.  The reply is a redirect exactly when the path opens as a
    directory and either lacks the trailing slash or has an index
    candidate that opens; a redirect writes no body. *)
Theorem redirect_iff (h : StatiqHandler) (world : W) (w : ResponseWriter)
    (r : Request) :
  handler_ok h -> rw_wroteHeader w = false ->
  (status_of (Statiq.ServeHTTP h world w r) = Some StatusMovedPermanently
   <-> exists f d,
         Dir_Open world (root h) (clean_upath r) = inr f
         /\ f_Stat f = inr d /\ fi_IsDir d = true
         /\ (ends_with_slash (URL_Path r) = false
             \/ exists index,
                  In index (indexFiles h)
                  /\ exists fi,
                       Dir_Open world (root h)
                         (path_Join (clean_upath r) index) = inr fi))
  /\ (status_of (Statiq.ServeHTTP h world w r) = Some StatusMovedPermanently
      -> body_of (Statiq.ServeHTTP h world w r) = Some (rw_body w)).
Proof.
  intros Hok Hw.
  assert (Hiff : status_of (Statiq.ServeHTTP h world w r)
                 = Some StatusMovedPermanently
                 <-> exists f d,
                       Dir_Open world (root h) (clean_upath r) = inr f
                       /\ f_Stat f = inr d /\ fi_IsDir d = true
                       /\ (ends_with_slash (URL_Path r) = false
                           \/ exists index,
                                In index (indexFiles h)
                                /\ exists fi,
                                     Dir_Open world (root h)
                                       (path_Join (clean_upath r) index)
                                     = inr fi)).
  { destruct (ServeHTTP_status_table h world w r Hok Hw)
      as (w' & -> & Htable).
    cbn [status_of].
    table_cases Htable; try destruct Htable as [Htable|Htable];
      rewrite Htable; unfold_status.
    all: split;
      [intros Hs; try discriminate
      |intros (f' & d' & Hf & Hd & Hdir & Hcase); try congruence].
    all: try (do 2 eexists; repeat split; eauto;
              first [now right; apply find_index_some_iff; eauto
                    |now left]).
    all: destruct Hcase as [Hsl|Hindex]; try congruence.
    all: apply find_index_some_iff in Hindex as [p Hp]; congruence. }
  split; [exact Hiff|].
  intros Hs. apply Hiff in Hs as (f & d & Hopen & Hstat & Hdir & Hcase).
  unfold Statiq.ServeHTTP. rewrite Hopen, Hstat, Hdir, needs_slash_spec.
  assert (Hbody : forall p, rw_body (localRedirect w r p) = rw_body w).
  { intros p. unfold localRedirect.
    match goal with
    | |- context [WriteHeader ?c (Header_Set ?k ?v w)] =>
        destruct (WriteHeader_fresh c (Header_Set k v w) Hw)
          as (_ & _ & _ & ->)
    end.
    reflexivity. }
  destruct (ends_with_slash (URL_Path r)) eqn:Hsl; cbn [negb body_of];
    [|now rewrite Hbody].
  destruct Hcase as [?|Hindex]; [discriminate|].
  apply find_index_some_iff in Hindex as [p ->]. cbn [body_of].
  now rewrite Hbody.
Qed.

End StatusClasses.

(** ** Serving a regular file *)

Section RegularFile.
Context `{GoLib} {W : Type} `{HostOps W}.

Lemma content_headers_type_preset w name modtime data ct :
  rw_header w !! "Content-Type" = Some ct ->
  content_headers w name modtime data !! "Content-Type" = Some ct.
Proof.
  intros Hct. unfold content_headers.
  assert (Hm : (if isZeroTime modtime then rw_header w
                else <["Last-Modified" :=
                         Format_TimeFormat (Time_UTC modtime)]>
                       (rw_header w)) !! "Content-Type" = Some ct).
  { destruct (isZeroTime modtime); [exact Hct|].
    now rewrite lookup_insert_ne by done. }
  revert Hm. generalize (if isZeroTime modtime then rw_header w
                else <["Last-Modified" :=
                         Format_TimeFormat (Time_UTC modtime)]>
                       (rw_header w)).
  intros m Hm. cbv zeta. rewrite Hm.
  destruct (_ !! "Content-Encoding");
    rewrite ?lookup_insert_ne by done; exact Hm.
Qed.

(** X6.  A path that opens as a readable regular file is answered, by both
    handlers and whatever the query, with status 200 and exactly the bytes
    of the file; the first handler sends the MIME type of the file's
    extension when the table knows one, even over a content type set
    before. *)
Theorem file_round_trip (h : StatiqHandler) (world : W) (w : ResponseWriter)
    (r : Request) (f : File) (d : FileInfo) (data : string) :
  unwritten w ->
  Dir_Open world (root h) (clean_upath r) = inr f ->
  f_Stat f = inr d -> fi_IsDir d = false -> f_data f = inr data ->
  status_of (Statiq.ServeHTTP h world w r) = Some StatusOK
  /\ body_of (Statiq.ServeHTTP h world w r) = Some data
  /\ status_of (StatiqB.ServeHTTP h world w r) = Some StatusOK
  /\ body_of (StatiqB.ServeHTTP h world w r) = Some data
  /\ (nonempty (mime_TypeByExtension (filepath_Ext (fi_Name d))) = true ->
      sent_header "Content-Type" (Statiq.ServeHTTP h world w r)
      = Some (mime_TypeByExtension (filepath_Ext (fi_Name d)))).
Proof.
  intros [Hw Hbody] Hopen Hstat Hdir Hdata.
  unfold Statiq.ServeHTTP, StatiqB.ServeHTTP.
  rewrite Hopen, Hstat, Hdir. cbv zeta. cbn [status_of body_of sent_header].
  destruct (setCacheHeaders_state h w r d) as (Hwrote & _ & _ & Hb).
  rewrite Hw in Hwrote. rewrite Hbody in Hb.
  destruct (ServeContent_fresh (setCacheHeaders h w r d) r (fi_Name d)
              (fi_ModTime d) f data Hwrote Hdata) as (HsB & HbB & _).
  set (ct := mime_TypeByExtension (filepath_Ext (fi_Name d))).
  assert (Hw1 : rw_wroteHeader
                  (if nonempty ct
                   then Header_Set "Content-Type" ct (setCacheHeaders h w r d)
                   else setCacheHeaders h w r d) = false)
    by (destruct (nonempty ct); exact Hwrote).
  assert (Hb1 : rw_body
                  (if nonempty ct
                   then Header_Set "Content-Type" ct (setCacheHeaders h w r d)
                   else setCacheHeaders h w r d) = "")
    by (destruct (nonempty ct); exact Hb).
  destruct (ServeContent_fresh _ r (fi_Name d) (fi_ModTime d) f data
              Hw1 Hdata) as (HsA & HbA & HhA).
  rewrite HsA, HbA, HsB, HbB, Hb1, Hb.
  repeat split.
  intros Hct. rewrite HhA, Hct.
  apply content_headers_type_preset, lookup_Header_Set_eq.
Qed.

End RegularFile.

(** ** Construction *)

Section ConstructionCases.
Context `{GoLib} {W : Type} `{HostOps W}.

(** X7.  When the root directory is there (its [Stat] does not report
    not-exist), the first [New] leaves the host as it is and returns what
    the second [New] returns. *)
Theorem New_agree_on_existing_root (world : W) (config : Config)
    (dir : string) :
  filepath_Abs world (Root config) = inr dir ->
  (forall e, os_Stat world dir = inl e -> os_IsNotExist e = false) ->
  Statiq.New world config = (world, StatiqB.New world config).
Proof.
  intros Habs Hthere. unfold Statiq.New, StatiqB.New. rewrite Habs.
  destruct (os_Stat world dir) as [e|info] eqn:Hstat.
  - rewrite (Hthere e eq_refl).
    destruct (nonempty (ErrorPage404 config)); [|reflexivity].
    destruct (os_Stat world (filepath_Join dir (ErrorPage404 config)))
      as [e'|?]; [|reflexivity].
    now destruct (os_IsNotExist e').
  - destruct (nonempty (ErrorPage404 config)); [|reflexivity].
    destruct (os_Stat world (filepath_Join dir (ErrorPage404 config)))
      as [e'|?]; [|reflexivity].
    now destruct (os_IsNotExist e').
Qed.

(** X8.  When the root directory does not exist, the second [New] refuses
    with an error; the first one creates it: if that fails it refuses, and
    if it succeeds it goes on exactly as [New] does in the host where the
    directory has been created. *)
Theorem New_on_missing_root (world : W) (config : Config) (dir : string)
    (e : go_error) :
  filepath_Abs world (Root config) = inr dir ->
  os_Stat world dir = inl e -> os_IsNotExist e = true ->
  StatiqB.New world config = inl (RootDoesNotExist dir)
  /\ (forall e', os_MkdirAll world dir = inl e' ->
        Statiq.New world config = (world, inl (CreateRootFailed dir)))
  /\ (forall world' info,
        os_MkdirAll world dir = inr world' ->
        filepath_Abs world' (Root config) = inr dir ->
        os_Stat world' dir = inr info ->
        Statiq.New world config = Statiq.New world' config).
Proof.
  intros Habs Hstat Hmissing. unfold Statiq.New, StatiqB.New.
  rewrite Habs, Hstat, Hmissing. split; [reflexivity|split].
  - intros e' Hmk. now rewrite Hmk.
  - intros world' info Hmk Habs' Hstat'. now rewrite Hmk, Habs', Hstat'.
Qed.

(** X9.  With the root there and an error page configured, [New] refuses
    exactly when [Stat] of the page reports not-exist; any other outcome of
    that [Stat], a failure included, gives a handler that keeps status 200
    for the page. *)
Theorem New_checks_error_page (world : W) (config : Config) (dir : string) :
  filepath_Abs world (Root config) = inr dir ->
  (forall e, os_Stat world dir = inl e -> os_IsNotExist e = false) ->
  nonempty (ErrorPage404 config) = true ->
  let page := filepath_Join dir (ErrorPage404 config) in
  ((exists e, os_Stat world page = inl e /\ os_IsNotExist e = true) ->
   snd (Statiq.New world config) = inl (ErrorPageNotFound page)
   /\ StatiqB.New world config = inl (ErrorPageNotFound page))
  /\ ((forall e, os_Stat world page = inl e -> os_IsNotExist e = false) ->
      snd (Statiq.New world config) = inr (make_handler dir config StatusOK)
      /\ StatiqB.New world config = inr (make_handler dir config StatusOK)).
Proof.
  intros Habs Hthere Hpage page.
  assert (Hroot : match os_Stat world dir with
                  | inl err => os_IsNotExist err
                  | inr _ => false
                  end = false).
  { destruct (os_Stat world dir) as [e|?] eqn:Hs; [|reflexivity].
    now apply Hthere. }
  assert (Hcreated : match os_Stat world dir with
                     | inl err => if os_IsNotExist err
                                  then os_MkdirAll world dir else inr world
                     | inr _ => inr world
                     end = inr world).
  { destruct (os_Stat world dir) as [e|?] eqn:Hs; [|reflexivity].
    now rewrite (Hthere e eq_refl). }
  unfold Statiq.New, StatiqB.New.
  rewrite Habs, Hcreated, Hroot, Hpage. fold page. split.
  - intros (e & -> & ->). auto.
  - intros Hother. destruct (os_Stat world page) as [e|?] eqn:Hs; [|auto].
    now rewrite (Hother e eq_refl).
Qed.

End ConstructionCases.

(** ** Cache headers, once more *)

(** X10.  [setCacheHeaders] writes its two headers over whatever was set
    before, by an earlier call included, and touches nothing else: no other
    header, not the status, not the body.  Calling it twice is calling it
    once. *)
Theorem setCacheHeaders_last_call_wins (h1 h2 : StatiqHandler)
    (w : ResponseWriter) (r1 r2 : Request) (d1 d2 : FileInfo) :
  setCacheHeaders h2 (setCacheHeaders h1 w r1 d1) r2 d2
  = setCacheHeaders h2 w r2 d2
  /\ setCacheHeaders h1 (setCacheHeaders h1 w r1 d1) r1 d1
     = setCacheHeaders h1 w r1 d1
  /\ (forall k, k <> "Cache-Control" -> k <> "Last-Modified" ->
        rw_header (setCacheHeaders h1 w r1 d1) !! k = rw_header w !! k)
  /\ rw_wroteHeader (setCacheHeaders h1 w r1 d1) = rw_wroteHeader w
  /\ rw_status (setCacheHeaders h1 w r1 d1) = rw_status w
  /\ rw_sent (setCacheHeaders h1 w r1 d1) = rw_sent w
  /\ rw_body (setCacheHeaders h1 w r1 d1) = rw_body w.
Proof.
  assert (Hwins : forall ha hb ra rb da db,
             setCacheHeaders hb (setCacheHeaders ha w ra da) rb db
             = setCacheHeaders hb w rb db).
  { intros ha hb ra rb da db. unfold setCacheHeaders. cbv zeta.
    assert (Hstep : forall a b x y,
               Header_Set "Last-Modified" b
                 (Header_Set "Cache-Control" y
                    (Header_Set "Last-Modified" a
                       (Header_Set "Cache-Control" x w)))
               = Header_Set "Last-Modified" b
                   (Header_Set "Cache-Control" y w)).
    { intros a b x y.
      rewrite (Header_Set_commute "Cache-Control" y "Last-Modified" a)
        by done.
      now rewrite !Header_Set_override. }
    destruct (cacheControl ha !! filepath_Ext (fi_Name da));
      [|destruct (cacheControl ha !! "*")];
      (destruct (cacheControl hb !! filepath_Ext (fi_Name db));
       [|destruct (cacheControl hb !! "*")]);
      apply Hstep. }
  split; [apply Hwins|split; [apply Hwins|split]].
  - intros k Hcc Hlm. unfold setCacheHeaders, Header_Set. cbn [rw_header].
    rewrite lookup_insert_ne by congruence.
    destruct (cacheControl h1 !! filepath_Ext (fi_Name d1));
      [|destruct (cacheControl h1 !! "*")]; cbn [rw_header];
      now rewrite lookup_insert_ne by congruence.
  - apply setCacheHeaders_state.
Qed.

(** ** The listing reply *)

Section ListingReply.
Context `{GoLib}.

(** X11.  [serveDirectoryListing] on a writer whose status is not out:
    when the directory reads, the reply is 200 and its headers are the
    ones set before plus the HTML content type, so no cache header is
    added; when reading fails, the reply is 500 with a fixed text and no
    part of a listing. *)
Theorem listing_reply (h : StatiqHandler) (w : ResponseWriter) (r : Request)
    (f : File) (d : FileInfo) :
  rw_wroteHeader w = false ->
  (forall dirs,
      f_Readdir f = inr dirs ->
      let w' := Statiq.serveDirectoryListing h w r f d in
      rw_status w' = StatusOK
      /\ rw_sent w'
         = <["Content-Type" := "text/html; charset=utf-8"]> (rw_header w)
      /\ rw_sent w' !! "Cache-Control" = rw_header w !! "Cache-Control"
      /\ rw_sent w' !! "Last-Modified" = rw_header w !! "Last-Modified")
  /\ (forall e,
        f_Readdir f = inl e ->
        let w' := Statiq.serveDirectoryListing h w r f d in
        rw_status w' = StatusInternalServerError
        /\ rw_body w' = rw_body w +:+ "Error reading directory" +:+ newline).
Proof.
  intros Hw. split.
  - intros dirs Hread. cbv zeta. unfold Statiq.serveDirectoryListing.
    rewrite Hread. cbv zeta.
    assert (Hsent : rw_sent
                      (Write (render_dirlist
                                (mkListing (URL_Path r)
                                   (map to_dirEntry (sort_Slice less dirs))))
                         (Header_Set "Content-Type"
                            "text/html; charset=utf-8" w))
                    = <["Content-Type" := "text/html; charset=utf-8"]>
                        (rw_header w)).
    { unfold Write, WriteHeader, Header_Set.
      cbn [rw_wroteHeader rw_sent rw_header]. now rewrite Hw. }
    rewrite Hsent. split; [|split; [reflexivity|]].
    + unfold Write, WriteHeader, Header_Set.
      cbn [rw_wroteHeader rw_status]. now rewrite Hw.
    + split; now rewrite lookup_insert_ne by done.
  - intros e Hread. cbv zeta. unfold Statiq.serveDirectoryListing.
    rewrite Hread. now apply http_Error_fresh.
Qed.

End ListingReply.

(** ** The order of a listing is the comparison's *)

Lemma may_precede_antisym a b :
  may_precede less a b -> may_precede less b a ->
  fi_IsDir a = fi_IsDir b /\ fi_Name a = fi_Name b.
Proof.
  rewrite !less_may_precede. unfold listing_le.
  cbn [to_dirEntry IsDir Name]. intros [Hab1 Hab2] [Hba1 Hba2].
  assert (Hkind : fi_IsDir a = fi_IsDir b).
  { destruct (fi_IsDir a), (fi_IsDir b); try reflexivity;
      [symmetry; now apply Hba1|now apply Hab1]. }
  split; [exact Hkind|].
  apply String.leb_antisym; auto.
Qed.

Lemma sorted_permutations_equal (l1 l2 : list FileInfo) :
  NoDup (map fi_Name l1) -> Permutation l1 l2 ->
  StronglySorted (may_precede less) l1 ->
  StronglySorted (may_precede less) l2 ->
  l1 = l2.
Proof.
  revert l2. induction l1 as [|x l1 IH]; intros l2 Hnodup Hperm Hs1 Hs2.
  - now apply Permutation_nil in Hperm.
  - destruct l2 as [|y l2];
      [apply Permutation_sym, Permutation_nil in Hperm; discriminate|].
    cbn [map] in Hnodup. apply NoDup_cons in Hnodup as [Hfresh Hnodup].
    apply StronglySorted_inv in Hs1 as [Hs1 Hx].
    apply StronglySorted_inv in Hs2 as [Hs2 Hy].
    rewrite Forall_forall in Hx, Hy.
    assert (Hxy : x = y).
    { assert (Hin_x : In x (y :: l2))
        by (eapply Permutation_in; [exact Hperm|now left]).
      assert (Hin_y : In y (x :: l1))
        by (eapply Permutation_in;
            [apply Permutation_sym, Hperm|now left]).
      destruct Hin_x as [Heq|Hin_x]; [now symmetry|].
      destruct Hin_y as [Heq|Hin_y]; [exact Heq|].
      apply list_elem_of_In in Hin_x, Hin_y.
      destruct (may_precede_antisym x y (Hx y Hin_y) (Hy x Hin_x))
        as [_ Hname].
      exfalso. apply Hfresh. rewrite Hname.
      apply list_elem_of_In, in_map, list_elem_of_In. exact Hin_y. }
    subst y. f_equal. apply IH; auto.
    now apply Permutation_cons_inv in Hperm.
Qed.

(** X12.  In a directory, where names are distinct, the listing order is
    fixed by the comparison alone: any arrangement of the entries in which
    no entry is less than an earlier one is the order the handler lists,
    whatever algorithm [sort.Slice] runs. *)
Theorem listing_order_unique (dirs sorted : list FileInfo) :
  NoDup (map fi_Name dirs) ->
  Permutation dirs sorted ->
  (forall i j a b,
      (i < j)%nat -> sorted !! i = Some a -> sorted !! j = Some b ->
      less b a = false) ->
  sorted = sort_Slice less dirs.
Proof.
  intros Hnodup Hperm Hsorted.
  assert (Hstrong : StronglySorted (may_precede less) sorted).
  { clear Hperm. induction sorted as [|x l IH]; [constructor|].
    constructor.
    - apply IH. intros i j a b Hij Ha Hb.
      apply (Hsorted (S i) (S j) a b); [lia|exact Ha|exact Hb].
    - rewrite Forall_forall. intros y Hy.
      apply list_elem_of_lookup_1 in Hy as [j Hj].
      apply (Hsorted O (S j) x y); [lia|reflexivity|exact Hj]. }
  symmetry. apply sorted_permutations_equal.
  - eapply NoDup_Permutation_proper; [|exact Hnodup].
    apply Permutation_sym, Permutation_map, sort_Slice_perm.
  - etransitivity; [apply Permutation_sym, sort_Slice_perm|exact Hperm].
  - apply sort_Slice_sorted; [exact less_asym|exact less_precede_trans].
  - exact Hstrong.
Qed.

(** ** What a reply depends on *)

Section Dependence.
Context `{GoLib} {W : Type} `{HostOps W}.

(** X13.  Outside directories the reply depends on the request only through
    the path with its leading slash: the query is ignored, and a path
    without leading slash is served as the same path with one. *)
Theorem reply_depends_on_upath_only (h : StatiqHandler) (world : W)
    (w : ResponseWriter) (r1 r2 : Request) :
  clean_upath r1 = clean_upath r2 ->
  (forall f d,
      Dir_Open world (root h) (clean_upath r1) = inr f ->
      f_Stat f = inr d -> fi_IsDir d = false) ->
  Statiq.ServeHTTP h world w r1 = Statiq.ServeHTTP h world w r2
  /\ StatiqB.ServeHTTP h world w r1 = StatiqB.ServeHTTP h world w r2.
Proof.
  intros Hupath Hfile. unfold Statiq.ServeHTTP, StatiqB.ServeHTTP.
  rewrite <- Hupath.
  destruct (Dir_Open world (root h) (clean_upath r1)) as [e|f];
    [split; reflexivity|].
  destruct (f_Stat f) as [e|d] eqn:Hstat; [split; reflexivity|].
  rewrite (Hfile f d eq_refl Hstat). split; reflexivity.
Qed.

(** X14.  The file [serveFile] replies with is sent with the cache policy
    and the MIME type of its own name, not of the requested path: the SPA
    index served for [/x.css] goes out as the index file. *)
Theorem serveFile_headers_of_served_file (h : StatiqHandler) (world : W)
    (w : ResponseWriter) (r : Request) (filePath : string) (f : File)
    (d : FileInfo) (data : string) :
  rw_wroteHeader w = false ->
  os_Open world filePath = inr f -> f_Stat f = inr d -> f_data f = inr data ->
  let w' := Statiq.serveFile h world w r filePath in
  rw_sent w' !! "Cache-Control"
  = Some (CacheHeaderPolicy (cacheControl h) (filepath_Ext (fi_Name d)))
  /\ rw_sent w' !! "Last-Modified"
     = Some (Format_TimeFormat (Time_UTC (fi_ModTime d)))
  /\ (nonempty (mime_TypeByExtension (filepath_Ext (fi_Name d))) = true ->
      rw_sent w' !! "Content-Type"
      = Some (mime_TypeByExtension (filepath_Ext (fi_Name d))))
  /\ rw_sent (StatiqB.serveFile h world w r filePath) !! "Cache-Control"
     = Some (CacheHeaderPolicy (cacheControl h) (filepath_Ext (fi_Name d))).
Proof.
  intros Hw Hopen Hstat Hdata. cbv zeta.
  unfold Statiq.serveFile, StatiqB.serveFile. rewrite Hopen, Hstat. cbv zeta.
  destruct (setCacheHeaders_state h w r d) as (Hwrote & _).
  rewrite Hw in Hwrote.
  destruct (setCacheHeaders_lookups h w r d) as [Hcc Hlm].
  set (ct := mime_TypeByExtension (filepath_Ext (fi_Name d))).
  set (w1 := if nonempty ct
             then Header_Set "Content-Type" ct (setCacheHeaders h w r d)
             else setCacheHeaders h w r d).
  assert (Hw1 : rw_wroteHeader w1 = false)
    by (subst w1; destruct (nonempty ct); exact Hwrote).
  assert (Hcc1 : rw_header w1 !! "Cache-Control"
                 = Some (CacheHeaderPolicy (cacheControl h)
                           (filepath_Ext (fi_Name d)))).
  { subst w1. destruct (nonempty ct); [|exact Hcc].
    now rewrite lookup_Header_Set_ne by done. }
  assert (Hlm1 : rw_header w1 !! "Last-Modified"
                 = Some (Format_TimeFormat (Time_UTC (fi_ModTime d)))).
  { subst w1. destruct (nonempty ct); [|exact Hlm].
    now rewrite lookup_Header_Set_ne by done. }
  destruct (ServeContent_fresh w1 r (fi_Name d) (fi_ModTime d) f data
              Hw1 Hdata) as (_ & _ & ->).
  destruct (ServeContent_fresh (setCacheHeaders h w r d) r (fi_Name d)
              (fi_ModTime d) f data Hwrote Hdata) as (_ & _ & ->).
  split; [apply content_headers_keep; auto|].
  split; [apply content_headers_keep; auto|].
  split; [|apply content_headers_keep; auto].
  intros Hct. apply content_headers_type_preset.
  subst w1. rewrite Hct. apply lookup_Header_Set_eq.
Qed.

End Dependence.

(** ** The default configuration, and following an index redirect *)

Section Composition.
Context `{GoLib} {W : Type} `{HostOps W}.

(** X15.  A handler built from [CreateConfig] lists no directory, has no
    SPA fallback and no error page, gives every file the cache directive
    max-age=86400, and answers a path that does not exist with the plain
    404 text. *)
Theorem default_config_replies (world world' : W) (h : StatiqHandler) :
  Statiq.New world CreateConfig = (world', inr h) ->
  enableDirListing h = false /\ spaMode h = false
  /\ indexFiles h = ["index.html"; "index.htm"]
  /\ notFoundResponseCode h = StatusNotFound
  /\ (forall w r d,
        rw_header (setCacheHeaders h w r d) !! "Cache-Control"
        = Some "max-age=86400")
  /\ (forall (serving : W) w r e,
        unwritten w ->
        Dir_Open serving (root h) (clean_upath r) = inl e ->
        os_IsNotExist e = true ->
        status_of (Statiq.ServeHTTP h serving w r) = Some StatusNotFound
        /\ body_of (Statiq.ServeHTTP h serving w r)
           = Some ("404 page not found" +:+ newline)).
Proof.
  unfold Statiq.New.
  destruct (filepath_Abs world (Root CreateConfig)) as [?|dir];
    [discriminate|].
  destruct (match os_Stat world dir with
            | inl err => if os_IsNotExist err then os_MkdirAll world dir
                         else inr world
            | inr _ => inr world
            end) as [?|world1]; [discriminate|].
  cbn [CreateConfig ErrorPage404 nonempty String.eqb negb].
  intros Hnew. inversion Hnew; subst. clear Hnew.
  cbn [make_handler enableDirListing spaMode indexFiles notFoundResponseCode
       EnableDirectoryListing SPAMode IndexFiles].
  do 4 (split; [reflexivity|]). split.
  - intros w r d.
    destruct (setCacheHeaders_lookups
                (make_handler dir CreateConfig StatusNotFound) w r d)
      as [-> _].
    unfold CacheHeaderPolicy.
    change (cacheControl (make_handler dir CreateConfig StatusNotFound))
      with (∅ : gmap string string).
    now rewrite !lookup_empty.
  - intros serving w r e [Hw Hbody] Hopen Hmissing.
    unfold Statiq.ServeHTTP. rewrite Hopen, Hmissing.
    change (spaMode (make_handler dir CreateConfig StatusNotFound))
      with false.
    change (nonempty
              (errorPage404 (make_handler dir CreateConfig StatusNotFound)))
      with false.
    cbv iota. unfold status_of, body_of, http_NotFound.
    destruct (http_Error_fresh w "404 page not found" StatusNotFound Hw)
      as [-> ->].
    now rewrite Hbody.
Qed.

Lemma clean_upath_rooted r : exists t, clean_upath r = String slash t.
Proof.
  unfold clean_upath, HasPrefix.
  destruct (URL_Path r) as [|c s]; [now exists ""|].
  cbn [String.prefix].
  destruct (ascii_dec "/" c) as [<-|_]; [|now eexists].
  destruct s; now eexists.
Qed.

Lemma path_Join_rooted s index :
  exists t, path_Join (String slash s) index = String slash t.
Proof.
  assert (Hclean : forall u, exists t,
             path_Clean (String slash u) = String slash t).
  { intros u. unfold path_Clean.
    change (Ascii.eqb slash slash) with true. cbv zeta. now eexists. }
  unfold path_Join. destruct index; apply Hclean.
Qed.

(** X16.  The Location of an index redirect is a path the handler serves:
    when the candidate found is a readable regular file, the request for
    the redirect target gets status 200 and the bytes of that file. *)
Theorem index_redirect_target_is_served (h : StatiqHandler) (world : W)
    (w : ResponseWriter) (r : Request) (f : File) (d : FileInfo)
    (target : string) (fi : File) (di : FileInfo) (data : string) :
  unwritten w ->
  Dir_Open world (root h) (clean_upath r) = inr f ->
  f_Stat f = inr d -> fi_IsDir d = true ->
  ends_with_slash (URL_Path r) = true ->
  Statiq.find_index h world (clean_upath r) (indexFiles h) = Some target ->
  Dir_Open world (root h) target = inr fi ->
  f_Stat fi = inr di -> fi_IsDir di = false -> f_data fi = inr data ->
  status_of (Statiq.ServeHTTP h world w r) = Some StatusMovedPermanently
  /\ sent_header "Location" (Statiq.ServeHTTP h world w r)
     = Some (if nonempty (URL_RawQuery r)
             then target +:+ "?" +:+ URL_RawQuery r else target)
  /\ status_of (Statiq.ServeHTTP h world w (mkRequest target (URL_RawQuery r)))
     = Some StatusOK
  /\ body_of (Statiq.ServeHTTP h world w (mkRequest target (URL_RawQuery r)))
     = Some data.
Proof.
  intros [Hw Hbody] Hopen Hstat Hdir Hslash Hfind Htarget Hstat' Hfile Hdata.
  assert (Hrooted : clean_upath (mkRequest target (URL_RawQuery r)) = target).
  { destruct (clean_upath_rooted r) as [s Hs].
    assert (Hin : exists index, target = path_Join (clean_upath r) index).
    { revert Hfind. generalize (indexFiles h).
      induction l as [|index rest IH]; [discriminate|].
      cbn [Statiq.find_index].
      destruct (Dir_Open world (root h) (path_Join (clean_upath r) index));
        [exact IH|].
      intros Heq. inversion Heq. now exists index. }
    destruct Hin as [index ->]. rewrite Hs.
    destruct (path_Join_rooted s index) as [t ->].
    unfold clean_upath, HasPrefix. cbn [URL_Path String.prefix].
    destruct (ascii_dec "/" slash) as [_|Hne]; [|now elim Hne].
    now destruct t. }
  split; [|split].
  - unfold Statiq.ServeHTTP. rewrite Hopen, Hstat, Hdir, needs_slash_spec.
    rewrite Hslash, Hfind. cbn [negb status_of]. unfold localRedirect.
    f_equal. now apply WriteHeader_fresh.
  - unfold Statiq.ServeHTTP. rewrite Hopen, Hstat, Hdir, needs_slash_spec.
    rewrite Hslash, Hfind. cbn [negb sent_header]. unfold localRedirect.
    match goal with
    | |- context [WriteHeader ?c (Header_Set ?k ?v w)] =>
        destruct (WriteHeader_fresh c (Header_Set k v w) Hw)
          as (_ & _ & -> & _)
    end.
    apply lookup_Header_Set_eq.
  - unfold Statiq.ServeHTTP. rewrite Hrooted, Htarget, Hstat', Hfile.
    cbv zeta. cbn [status_of body_of].
    set (r' := mkRequest target (URL_RawQuery r)).
    destruct (setCacheHeaders_state h w r' di) as (Hwrote & _ & _ & Hb).
    rewrite Hw in Hwrote. rewrite Hbody in Hb.
    set (ct := mime_TypeByExtension (filepath_Ext (fi_Name di))).
    assert (Hw1 : rw_wroteHeader
                    (if nonempty ct
                     then Header_Set "Content-Type" ct
                            (setCacheHeaders h w r' di)
                     else setCacheHeaders h w r' di) = false)
      by (destruct (nonempty ct); exact Hwrote).
    assert (Hb1 : rw_body
                    (if nonempty ct
                     then Header_Set "Content-Type" ct
                            (setCacheHeaders h w r' di)
                     else setCacheHeaders h w r' di) = "")
      by (destruct (nonempty ct); exact Hb).
    destruct (ServeContent_fresh _ r' (fi_Name di) (fi_ModTime di) fi data
                Hw1 Hdata) as (-> & -> & _).
    rewrite Hb1. auto.
Qed.

End Composition.

(** ** The further properties on the concrete site *)

Lemma handlers_agree_witness :
  StatiqB.ServeHTTP Mem.h_page Mem.site fresh_writer (Mem.get "/sub/" "x=1")
  = Statiq.ServeHTTP Mem.h_page Mem.site fresh_writer (Mem.get "/sub/" "x=1")
  /\ StatiqB.ServeHTTP Mem.h_spa Mem.site fresh_writer
       (Mem.get "/no/such.css" "")
     = Statiq.ServeHTTP Mem.h_spa Mem.site fresh_writer
         (Mem.get "/no/such.css" "").
Proof.
  split.
  - apply (handlers_agree Mem.h_page Mem.site fresh_writer
             (Mem.get "/sub/" "x=1"));
      [reflexivity|discriminate|reflexivity|reflexivity].
  - apply (handlers_agree Mem.h_spa Mem.site fresh_writer
             (Mem.get "/no/such.css" ""));
      [reflexivity|discriminate|reflexivity|reflexivity].
Defined.

Lemma status_is_one_of_five_witness :
  exists code,
    status_of (Statiq.ServeHTTP Mem.h_listing Mem.site fresh_writer
                 (Mem.get "/docs/" ""))
    = Some code
    /\ In code [StatusOK; StatusMovedPermanently; StatusForbidden;
                StatusNotFound; StatusInternalServerError].
Proof.
  apply (status_is_one_of_five Mem.h_listing Mem.site fresh_writer
           (Mem.get "/docs/" "")); reflexivity.
Defined.

Lemma forbidden_iff_open_error_witness :
  status_of (Statiq.ServeHTTP Mem.h_plain Mem.site fresh_writer
               (Mem.get "/secret" ""))
  = Some StatusForbidden
  /\ body_of (Statiq.ServeHTTP Mem.h_plain Mem.site fresh_writer
                (Mem.get "/secret" ""))
     = Some ("Forbidden" +:+ newline).
Proof.
  destruct (forbidden_iff_open_error Mem.h_plain Mem.site fresh_writer
              (Mem.get "/secret" "") eq_refl eq_refl) as [Hiff Hbody].
  assert (Hstatus : status_of (Statiq.ServeHTTP Mem.h_plain Mem.site
                                 fresh_writer (Mem.get "/secret" ""))
                    = Some StatusForbidden).
  { apply Hiff. exists ErrPermission. split; vm_compute; reflexivity. }
  split; [exact Hstatus|exact (Hbody Hstatus)].
Defined.

Lemma not_found_iff_witness :
  status_of (Statiq.ServeHTTP Mem.h_plain Mem.site fresh_writer
               (Mem.get "/docs/" ""))
  = Some StatusNotFound
  /\ status_of (Statiq.ServeHTTP Mem.h_plain Mem.site fresh_writer
                  (Mem.get "/nothing/here" ""))
     = Some StatusNotFound.
Proof.
  split.
  - apply (not_found_iff Mem.h_plain Mem.site fresh_writer
             (Mem.get "/docs/" "") eq_refl eq_refl).
    split; [reflexivity|]. right.
    exists (mkFile (inr (Mem.info "/srv/docs" (Mem.Folder Mem.t0)))
                   (inr (Mem.children Mem.site "/srv/docs"))
                   (inl (ErrOther "is a directory"))),
           (Mem.info "/srv/docs" (Mem.Folder Mem.t0)).
    split; [vm_compute; reflexivity|].
    split; [reflexivity|]. split; [reflexivity|]. split; [reflexivity|].
    split; [|reflexivity].
    intros index [<-|[<-|[<-|[]]]]; eexists; vm_compute; reflexivity.
  - apply (not_found_iff Mem.h_plain Mem.site fresh_writer
             (Mem.get "/nothing/here" "") eq_refl eq_refl).
    split; [reflexivity|]. left. exists ErrNotExist.
    split; [vm_compute; reflexivity|]. split; reflexivity.
Defined.

Lemma redirect_iff_witness :
  status_of (Statiq.ServeHTTP Mem.h_plain Mem.site fresh_writer
               (Mem.get "/docs" ""))
  = Some StatusMovedPermanently
  /\ body_of (Statiq.ServeHTTP Mem.h_plain Mem.site fresh_writer
                (Mem.get "/docs" ""))
     = Some "".
Proof.
  destruct (redirect_iff Mem.h_plain Mem.site fresh_writer
              (Mem.get "/docs" "") eq_refl eq_refl) as [Hiff Hbody].
  assert (Hstatus : status_of (Statiq.ServeHTTP Mem.h_plain Mem.site
                                 fresh_writer (Mem.get "/docs" ""))
                    = Some StatusMovedPermanently).
  { apply Hiff.
    exists (mkFile (inr (Mem.info "/srv/docs" (Mem.Folder Mem.t0)))
                   (inr (Mem.children Mem.site "/srv/docs"))
                   (inl (ErrOther "is a directory"))),
           (Mem.info "/srv/docs" (Mem.Folder Mem.t0)).
    split; [vm_compute; reflexivity|].
    split; [reflexivity|]. split; [reflexivity|]. now left. }
  split; [exact Hstatus|exact (Hbody Hstatus)].
Defined.

Lemma file_round_trip_witness :
  status_of (Statiq.ServeHTTP Mem.h_plain Mem.site fresh_writer
               (Mem.get "/style.css" "v=2"))
  = Some StatusOK
  /\ body_of (Statiq.ServeHTTP Mem.h_plain Mem.site fresh_writer
                (Mem.get "/style.css" "v=2"))
     = Some "body {}"
  /\ status_of (StatiqB.ServeHTTP Mem.h_plain Mem.site fresh_writer
                  (Mem.get "/style.css" "v=2"))
     = Some StatusOK
  /\ body_of (StatiqB.ServeHTTP Mem.h_plain Mem.site fresh_writer
                (Mem.get "/style.css" "v=2"))
     = Some "body {}"
  /\ sent_header "Content-Type"
       (Statiq.ServeHTTP Mem.h_plain Mem.site fresh_writer
          (Mem.get "/style.css" "v=2"))
     = Some "text/css; charset=utf-8".
Proof.
  destruct (file_round_trip Mem.h_plain Mem.site fresh_writer
              (Mem.get "/style.css" "v=2")
              (mkFile (inr (Mem.info "/srv/style.css"
                              (Mem.Regular "body {}" Mem.t0)))
                      (inl (ErrOther "not a directory")) (inr "body {}"))
              (Mem.info "/srv/style.css" (Mem.Regular "body {}" Mem.t0))
              "body {}")
    as (H1 & H2 & H3 & H4 & H5).
  - split; reflexivity.
  - vm_compute; reflexivity.
  - reflexivity.
  - reflexivity.
  - reflexivity.
  - split; [exact H1|split; [exact H2|split; [exact H3|split; [exact H4|]]]].
    apply H5. vm_compute; reflexivity.
Defined.

Lemma New_agree_on_existing_root_witness :
  Statiq.New Mem.site (Mem.config false "404.html" false)
  = (Mem.site, StatiqB.New Mem.site (Mem.config false "404.html" false)).
Proof.
  apply (New_agree_on_existing_root Mem.site
           (Mem.config false "404.html" false) "/srv").
  - reflexivity.
  - intros e He. vm_compute in He. discriminate.
Defined.

Lemma New_on_missing_root_witness :
  StatiqB.New Mem.site (mkConfig "/fresh" false [] false "index.html" "" ∅)
  = inl (RootDoesNotExist "/fresh")
  /\ Statiq.New Mem.site (mkConfig "/fresh" false [] false "index.html" "" ∅)
     = Statiq.New (Mem.site ++ [("/fresh", Mem.Folder (mkTime 0 0))])
         (mkConfig "/fresh" false [] false "index.html" "" ∅).
Proof.
  destruct (New_on_missing_root Mem.site
              (mkConfig "/fresh" false [] false "index.html" "" ∅)
              "/fresh" ErrNotExist)
    as (HB & _ & HA).
  - reflexivity.
  - vm_compute; reflexivity.
  - reflexivity.
  - split; [exact HB|].
    apply (HA (Mem.site ++ [("/fresh", Mem.Folder (mkTime 0 0))])
              (Mem.info "/fresh" (Mem.Folder (mkTime 0 0)))).
    + vm_compute; reflexivity.
    + reflexivity.
    + vm_compute; reflexivity.
Defined.

Lemma New_checks_error_page_witness :
  snd (Statiq.New Mem.site (Mem.config false "nope.html" false))
  = inl (ErrorPageNotFound "/srv/nope.html")
  /\ snd (Statiq.New Mem.site (Mem.config false "loop" false))
     = inr (make_handler "/srv" (Mem.config false "loop" false) StatusOK).
Proof.
  split.
  - refine (proj1 (proj1 (New_checks_error_page Mem.site
                            (Mem.config false "nope.html" false) "/srv"
                            _ _ _) _)).
    + reflexivity.
    + intros e He. vm_compute in He. discriminate.
    + reflexivity.
    + exists ErrNotExist. split; vm_compute; reflexivity.
  - refine (proj1 (proj2 (New_checks_error_page Mem.site
                            (Mem.config false "loop" false) "/srv"
                            _ _ _) _)).
    + reflexivity.
    + intros e He. vm_compute in He. discriminate.
    + reflexivity.
    + intros e He. vm_compute in He. inversion He. reflexivity.
Defined.

Lemma listing_reply_witness :
  rw_status (Statiq.serveDirectoryListing Mem.h_listing fresh_writer
               (Mem.get "/docs/" "")
               (mkFile (inr (Mem.info "/srv/docs" (Mem.Folder Mem.t0)))
                       (inr (Mem.children Mem.site "/srv/docs"))
                       (inl (ErrOther "is a directory")))
               (Mem.info "/srv/docs" (Mem.Folder Mem.t0)))
  = StatusOK
  /\ rw_status (Statiq.serveDirectoryListing Mem.h_listing fresh_writer
                  (Mem.get "/stale" "")
                  (mkFile (inl (ErrOther "stale file handle"))
                          (inl (ErrOther "stale file handle"))
                          (inl (ErrOther "stale file handle")))
                  (Mem.info "/srv/stale" Mem.Stale))
     = StatusInternalServerError.
Proof.
  split.
  - exact (proj1 (proj1 (listing_reply Mem.h_listing fresh_writer
                           (Mem.get "/docs/" "")
                           (mkFile (inr (Mem.info "/srv/docs"
                                           (Mem.Folder Mem.t0)))
                                   (inr (Mem.children Mem.site "/srv/docs"))
                                   (inl (ErrOther "is a directory")))
                           (Mem.info "/srv/docs" (Mem.Folder Mem.t0))
                           eq_refl)
                        (Mem.children Mem.site "/srv/docs") eq_refl)).
  - exact (proj1 (proj2 (listing_reply Mem.h_listing fresh_writer
                           (Mem.get "/stale" "")
                           (mkFile (inl (ErrOther "stale file handle"))
                                   (inl (ErrOther "stale file handle"))
                                   (inl (ErrOther "stale file handle")))
                           (Mem.info "/srv/stale" Mem.Stale) eq_refl)
                        (ErrOther "stale file handle") eq_refl)).
Defined.

Lemma listing_order_unique_witness :
  [Mem.info "/srv/docs/art" (Mem.Folder Mem.t0);
   Mem.info "/srv/docs/zoo" (Mem.Folder Mem.t0);
   Mem.info "/srv/docs/a.txt" (Mem.Regular "ay" Mem.t0);
   Mem.info "/srv/docs/b.txt" (Mem.Regular "bee" Mem.t0)]
  = sort_Slice less (Mem.children Mem.site "/srv/docs").
Proof.
  apply listing_order_unique.
  - apply (bool_decide_unpack _). vm_compute. reflexivity.
  - vm_compute.
    apply perm_trans
      with (l' := [mkFileInfo "zoo" 4096 493 Mem.t0 true;
                   mkFileInfo "b.txt" 3 420 Mem.t0 false;
                   mkFileInfo "a.txt" 2 420 Mem.t0 false;
                   mkFileInfo "art" 4096 493 Mem.t0 true]).
    + apply perm_swap.
    + apply perm_trans
        with (l' := [mkFileInfo "zoo" 4096 493 Mem.t0 true;
                     mkFileInfo "a.txt" 2 420 Mem.t0 false;
                     mkFileInfo "b.txt" 3 420 Mem.t0 false;
                     mkFileInfo "art" 4096 493 Mem.t0 true]);
        [apply perm_skip, perm_swap|].
      apply perm_trans
        with (l' := [mkFileInfo "zoo" 4096 493 Mem.t0 true;
                     mkFileInfo "a.txt" 2 420 Mem.t0 false;
                     mkFileInfo "art" 4096 493 Mem.t0 true;
                     mkFileInfo "b.txt" 3 420 Mem.t0 false]);
        [apply perm_skip, perm_skip, perm_swap|].
      apply perm_trans
        with (l' := [mkFileInfo "zoo" 4096 493 Mem.t0 true;
                     mkFileInfo "art" 4096 493 Mem.t0 true;
                     mkFileInfo "a.txt" 2 420 Mem.t0 false;
                     mkFileInfo "b.txt" 3 420 Mem.t0 false]);
        [apply perm_skip, perm_swap|].
      apply perm_swap.
  - intros i j a b Hij Ha Hb.
    destruct i as [|[|[|[|i]]]]; destruct j as [|[|[|[|j]]]]; try lia;
      cbn in Ha, Hb; try discriminate;
      inversion Ha; inversion Hb; subst; reflexivity.
Defined.

Lemma reply_depends_on_upath_only_witness :
  Statiq.ServeHTTP Mem.h_plain Mem.site fresh_writer
    (Mem.get "style.css" "v=2")
  = Statiq.ServeHTTP Mem.h_plain Mem.site fresh_writer
      (Mem.get "/style.css" "")
  /\ StatiqB.ServeHTTP Mem.h_plain Mem.site fresh_writer
       (Mem.get "style.css" "v=2")
     = StatiqB.ServeHTTP Mem.h_plain Mem.site fresh_writer
         (Mem.get "/style.css" "").
Proof.
  apply (reply_depends_on_upath_only Mem.h_plain Mem.site fresh_writer
           (Mem.get "style.css" "v=2") (Mem.get "/style.css" "")).
  - reflexivity.
  - intros f d Hopen Hstat. vm_compute in Hopen. inversion Hopen; subst.
    vm_compute in Hstat. inversion Hstat. reflexivity.
Defined.

Lemma serveFile_headers_of_served_file_witness :
  sent_header "Cache-Control"
    (Statiq.ServeHTTP Mem.h_spa Mem.site fresh_writer
       (Mem.get "/no/such.css" ""))
  = Some "max-age=600"
  /\ sent_header "Content-Type"
       (Statiq.ServeHTTP Mem.h_spa Mem.site fresh_writer
          (Mem.get "/no/such.css" ""))
     = Some "text/html; charset=utf-8".
Proof.
  destruct (serveFile_headers_of_served_file Mem.h_spa Mem.site fresh_writer
              (Mem.get "/no/such.css" "") "/srv/index.html"
              (mkFile (inr (Mem.info "/srv/index.html"
                              (Mem.Regular "<html>app</html>" Mem.t0)))
                      (inl (ErrOther "not a directory"))
                      (inr "<html>app</html>"))
              (Mem.info "/srv/index.html"
                 (Mem.Regular "<html>app</html>" Mem.t0))
              "<html>app</html>")
    as (Hcc & _ & Hct & _).
  - reflexivity.
  - vm_compute; reflexivity.
  - reflexivity.
  - reflexivity.
  - split; [exact Hcc|]. apply Hct. vm_compute; reflexivity.
Defined.

Lemma default_config_replies_witness :
  status_of (Statiq.ServeHTTP (make_handler "/" CreateConfig 404) Mem.site
               fresh_writer (Mem.get "/nothing/here" ""))
  = Some StatusNotFound
  /\ body_of (Statiq.ServeHTTP (make_handler "/" CreateConfig 404)
                Mem.site fresh_writer (Mem.get "/nothing/here" ""))
     = Some ("404 page not found" +:+ newline).
Proof.
  refine (proj2 (proj2 (proj2 (proj2 (proj2
            (default_config_replies Mem.site Mem.site
               (make_handler "/" CreateConfig 404) _)))))
            Mem.site fresh_writer (Mem.get "/nothing/here" "")
            ErrNotExist _ _ _).
  - vm_compute; reflexivity.
  - split; reflexivity.
  - vm_compute; reflexivity.
  - reflexivity.
Defined.

Lemma index_redirect_target_is_served_witness :
  sent_header "Location"
    (Statiq.ServeHTTP Mem.h_plain Mem.site fresh_writer (Mem.get "/sub/" ""))
  = Some "/sub/index.htm"
  /\ status_of (Statiq.ServeHTTP Mem.h_plain Mem.site fresh_writer
                  (Mem.get "/sub/index.htm" ""))
     = Some StatusOK
  /\ body_of (Statiq.ServeHTTP Mem.h_plain Mem.site fresh_writer
                (Mem.get "/sub/index.htm" ""))
     = Some "<html>sub, second choice</html>".
Proof.
  destruct (index_redirect_target_is_served Mem.h_plain Mem.site fresh_writer
              (Mem.get "/sub/" "")
              (mkFile (inr (Mem.info "/srv/sub" (Mem.Folder Mem.t0)))
                      (inr (Mem.children Mem.site "/srv/sub"))
                      (inl (ErrOther "is a directory")))
              (Mem.info "/srv/sub" (Mem.Folder Mem.t0))
              "/sub/index.htm"
              (mkFile (inr (Mem.info "/srv/sub/index.htm"
                              (Mem.Regular "<html>sub, second choice</html>"
                                 Mem.t0)))
                      (inl (ErrOther "not a directory"))
                      (inr "<html>sub, second choice</html>"))
              (Mem.info "/srv/sub/index.htm"
                 (Mem.Regular "<html>sub, second choice</html>" Mem.t0))
              "<html>sub, second choice</html>")
    as (_ & Hlocation & Hstatus & Hbody).
  - split; reflexivity.
  - vm_compute; reflexivity.
  - reflexivity.
  - reflexivity.
  - reflexivity.
  - vm_compute; reflexivity.
  - vm_compute; reflexivity.
  - reflexivity.
  - reflexivity.
  - reflexivity.
  - split; [exact Hlocation|split; [exact Hstatus|exact Hbody]].
Defined.
